(** * EcoCrop AI backend (backend/server.py): a shallow embedding

    The request handlers of [backend/server.py] are embedded as functions
    that pass the document store explicitly and return either a value or the
    exception the Python code raises.  The outcome of every external call
    (the language-model reply, the clock, fresh identifiers, the image
    pipeline) is an argument of the handler that makes the call.

    Python values are kept as Python has them: a [str] is a sequence of code
    points, a dict parsed from JSON is a finite map from [str] to values, an
    [int] is unbounded. *)

From Stdlib Require Import ZArith NArith Lia.
From stdpp Require Import gmap strings list sorting.

Local Open Scope Z_scope.

(** ** Python strings *)

(** A Python [str]: its code points, in order. *)
Abbreviation str := (list N).

(** A literal of the source text (ASCII only). *)
Definition lit (s : string) : str :=
  (fun a => Ascii.N_of_ascii a) <$> String.list_ascii_of_string s.

(** A literal in which every apostrophe stands for a double quote: JSON
    text is written [js "{'a': 1}"]. *)
Definition js (s : string) : str :=
  (fun c => if (c =? 39)%N then 34%N else c) <$> lit s.

Arguments lit : simpl never.
Arguments js : simpl never.

Module Py.

(** [str.isspace] on one code point (the white-space table of CPython). *)
Definition isspace (c : N) : bool :=
  ((9 <=? c) && (c <=? 13) || (28 <=? c) && (c <=? 32)
   || (c =? 133) || (c =? 160) || (c =? 5760)
   || (8192 <=? c) && (c <=? 8202)
   || (c =? 8232) || (c =? 8233) || (c =? 8239) || (c =? 8287)
   || (c =? 12288))%N.

Fixpoint lstrip (s : str) : str :=
  match s with
  | c :: t => if isspace c then lstrip t else s
  | [] => []
  end.

Definition rstrip (s : str) : str := reverse (lstrip (reverse s)).

(** [s.strip()] *)
Definition strip (s : str) : str := rstrip (lstrip s).

(** [s.startswith(p)] *)
Definition startswith (s p : str) : bool := bool_decide (take (length p) s = p).

(** [s.endswith(p)] *)
Definition endswith (s p : str) : bool :=
  bool_decide (length p <= length s)%nat
  && bool_decide (drop (length s - length p) s = p).

(** [s[n:]], [s[:n]] and [s[:-n]] for a literal [n >= 0]: slices never
    raise, they clip. *)
Definition slice_from (n : nat) (s : str) : str := drop n s.
Definition slice_to (n : nat) (s : str) : str := take n s.
Definition slice_to_neg (n : nat) (s : str) : str := take (length s - n) s.

(** Lexicographic comparison of two strings by code point. *)
Fixpoint str_compare (a b : str) : comparison :=
  match a, b with
  | [], [] => Eq
  | [], _ :: _ => Lt
  | _ :: _, [] => Gt
  | x :: a', y :: b' =>
      match (x ?= y)%N with
      | Eq => str_compare a' b'
      | c => c
      end
  end.

Definition str_le (a b : str) : Prop := str_compare a b <> Gt.

(** ** Python floats (binary64) *)

(** A finite float is [(-1)^sign * m * 2^e]; zero has [m = 0]. *)
Inductive pyfloat :=
| FFinite (sign : bool) (m : Z) (e : Z)
| FInf (sign : bool)
| FNan.

(** The quotient [num / den] scaled by [2^-e], with its remainder test
    data: [(q, 2*r ?= d)] where [num * 2^-e = q * d + r]. *)
Definition scaled_div (num den e : Z) : Z * comparison :=
  let n' := if e <? 0 then num * 2 ^ (- e) else num in
  let d' := if e <? 0 then den else den * 2 ^ e in
  (n' / d', (2 * (n' mod d') ?= d')).

(** [float(literal)]: the binary64 nearest to [num / den] (ties to even),
    for [num >= 0] and [den > 0]. *)
Definition float_of_ratio (sign : bool) (num den : Z) : pyfloat :=
  if num =? 0 then FFinite sign 0 0 else
  let e0 := Z.log2 num - Z.log2 den - 52 in
  let q0 := fst (scaled_div num den e0) in
  let e1 := if 2 ^ 53 <=? q0 then e0 + 1
            else if q0 <? 2 ^ 52 then e0 - 1 else e0 in
  let e := Z.max e1 (-1074) in
  let '(q, c) := scaled_div num den e in
  let q' := match c with
            | Gt => q + 1
            | Eq => if Z.odd q then q + 1 else q
            | Lt => q
            end in
  let '(m, e') := if q' =? 2 ^ 53 then (2 ^ 52, e + 1) else (q', e) in
  if 971 <? e' then FInf sign
  else if m =? 0 then FFinite sign 0 0
  else FFinite sign m e'.

(** The float written [digits * 10^e10] in decimal. *)
Definition float_of_decimal (sign : bool) (digits e10 : Z) : pyfloat :=
  if e10 <? 0 then float_of_ratio sign digits (10 ^ (- e10))
  else float_of_ratio sign (digits * 10 ^ e10) 1.

(** ** Python objects, as far as [json.loads] produces them *)

#[warning="-register-all"]
Inductive value :=
| VNone
| VBool (b : bool)
| VInt (z : Z)
| VFloat (f : pyfloat)
| VStr (s : str)
| VList (l : list value)
| VDict (d : gmap str value).

(** Truth value of an object, as [if x:] tests it. *)
Definition truthy (v : value) : bool :=
  match v with
  | VNone => false
  | VBool b => b
  | VInt z => negb (z =? 0)
  | VFloat (FFinite _ m _) => negb (m =? 0)
  | VFloat _ => true
  | VStr s => negb (bool_decide (s = []))
  | VList l => negb (bool_decide (length l = 0%nat))
  | VDict d => negb (bool_decide (d = ∅))
  end.

(** ** Exceptions *)

Inductive exn :=
| HTTPException (status_code : Z) (detail : str)
| JSONDecodeError
| ValueError
| TypeError
| OverflowError
| AttributeError
| ValidationError
| ExpiredSignatureError
| InvalidTokenError
| ExternalError (what : str).

Inductive result (A : Type) :=
| Return (a : A)
| Raise (e : exn).
Arguments Return {A} a.
Arguments Raise {A} e.

Definition bind {A B} (r : result A) (k : A -> result B) : result B :=
  match r with
  | Return a => k a
  | Raise e => Raise e
  end.

End Py.

Export Py.

#[global] Instance result_ret : MRet result := @Return.
#[global] Instance result_bind : MBind result := fun A B k r => Py.bind r k.

(** [try: body except ...: handler]: the handler names the exceptions it
    catches. *)
Definition try_except {A} (body : result A)
    (handler : exn -> option (result A)) : result A :=
  match body with
  | Return a => Return a
  | Raise e =>
      match handler e with
      | Some r => r
      | None => Raise e
      end
  end.

(** ** [json.loads] *)

Module Json.

(** White space of the JSON grammar: space, tab, line feed, return. *)
Definition is_ws (c : N) : bool :=
  ((c =? 32) || (c =? 9) || (c =? 10) || (c =? 13))%N.

Fixpoint skip_ws (s : str) : str :=
  match s with
  | c :: t => if is_ws c then skip_ws t else s
  | [] => []
  end.

Definition is_digit (c : N) : bool := ((48 <=? c) && (c <=? 57))%N.

Definition digit_value (c : N) : Z := Z.of_N c - 48.

(** The longest prefix of ASCII digits, and what follows it. *)
Fixpoint span_digits (s : str) : str * str :=
  match s with
  | c :: t =>
      if is_digit c then let '(d, r) := span_digits t in (c :: d, r)
      else ([], s)
  | [] => ([], [])
  end.

Definition digits_to_Z (d : str) : Z :=
  foldl (fun acc c => 10 * acc + digit_value c) 0 d.

Definition hex_value (c : N) : option Z :=
  if is_digit c then Some (Z.of_N c - 48)
  else if ((97 <=? c) && (c <=? 102))%N then Some (Z.of_N c - 87)
  else if ((65 <=? c) && (c <=? 70))%N then Some (Z.of_N c - 55)
  else None.

Definition hex4 (a b c d : N) : option Z :=
  a' ← hex_value a; b' ← hex_value b; c' ← hex_value c; d' ← hex_value d;
  Some (((a' * 16 + b') * 16 + c') * 16 + d').

(** The character an escape letter stands for. *)
Definition escape (c : N) : option N :=
  if (c =? 34)%N then Some 34%N          (* quote *)
  else if (c =? 92)%N then Some 92%N     (* backslash *)
  else if (c =? 47)%N then Some 47%N     (* slash *)
  else if (c =? 98)%N then Some 8%N      (* b: backspace *)
  else if (c =? 102)%N then Some 12%N    (* f: form feed *)
  else if (c =? 110)%N then Some 10%N    (* n: line feed *)
  else if (c =? 114)%N then Some 13%N    (* r: return *)
  else if (c =? 116)%N then Some 9%N     (* t: tab *)
  else None.

(** [scanstring]: the text after an opening quote, up to the closing one
    (strict mode: a raw control character ends the parse with an error). *)
Fixpoint scanstring (s : str) (acc : str) : option (str * str) :=
  match s with
  | [] => None
  | c :: t =>
      if (c =? 34)%N then Some (reverse acc, t)
      else if (c =? 92)%N then
        match t with
        | [] => None
        | e :: t' =>
            if (e =? 117)%N then
              match t' with
              | h1 :: h2 :: h3 :: h4 :: r =>
                  match hex4 h1 h2 h3 h4 with
                  | None => None
                  | Some uni =>
                      let single := scanstring r (Z.to_N uni :: acc) in
                      if (55296 <=? uni) && (uni <=? 56319) then
                        match r with
                        | b :: u :: g1 :: g2 :: g3 :: g4 :: r2 =>
                            if ((b =? 92) && (u =? 117))%N then
                              match hex4 g1 g2 g3 g4 with
                              | None => None
                              | Some uni2 =>
                                  if (56320 <=? uni2) && (uni2 <=? 57343) then
                                    scanstring r2
                                      (Z.to_N (65536 + (uni - 55296) * 1024
                                               + (uni2 - 56320)) :: acc)
                                  else single
                              end
                            else single
                        | _ => single
                        end
                      else single
                  end
              | _ => None
              end
            else
              match escape e with
              | Some x => scanstring t' (x :: acc)
              | None => None
              end
        end
      else if (c <? 32)%N then None
      else scanstring t (c :: acc)
  end.

(** A number: an optional minus sign, then 0 or a digit string without a
    leading 0, then an optional fraction (a dot and digits) and an optional
    exponent (e or E, an optional sign, digits); an integer literal gives an
    [int], any other a [float]. *)
Definition scan_number (s : str) : option (value * str) :=
  let '(neg, s1) := match s with
                    | 45%N :: t => (true, t)
                    | _ => (false, s)
                    end in
  match s1 with
  | [] => None
  | c :: t =>
      if negb (is_digit c) then None else
      let '(ipart, r1) := if (c =? 48)%N then ([c], t) else span_digits s1 in
      let '(fpart, r2) :=
        match r1 with
        | 46%N :: t1 =>
            match span_digits t1 with
            | ([], _) => ([], r1)
            | (f, r) => (f, r)
            end
        | _ => ([], r1)
        end in
      let '(has_exp, ex, r3) :=
        match r2 with
        | e :: t2 =>
            if ((e =? 101) || (e =? 69))%N then
              let '(eneg, t3) :=
                match t2 with
                | 45%N :: t3 => (true, t3)
                | 43%N :: t3 => (false, t3)
                | _ => (false, t2)
                end in
              match span_digits t3 with
              | ([], _) => (false, 0, r2)
              | (x, r) => (true, if eneg then - digits_to_Z x
                                 else digits_to_Z x, r)
              end
            else (false, 0, r2)
        | [] => (false, 0, r2)
        end in
      match fpart, has_exp with
      | [], false =>
          Some (VInt (if neg then - digits_to_Z ipart
                      else digits_to_Z ipart), r3)
      | _, _ =>
          Some (VFloat (float_of_decimal neg (digits_to_Z (ipart ++ fpart))
                          (ex - Z.of_nat (length fpart))), r3)
      end
  end.

(** A literal word at the head of the text. *)
Definition word (w : string) (s : str) : option str :=
  if startswith s (lit w) then Some (drop (length (lit w)) s) else None.

(** The members of an object, from the opening quote of a key on. *)
Fixpoint JSONObject (scan : str -> option (value * str)) (n : nat)
    (s : str) (acc : gmap str value) : option (value * str) :=
  match n with
  | O => None
  | S n' =>
      match s with
      | 34%N :: t =>
          '(key, r) ← scanstring t [];
          match skip_ws r with
          | 58%N :: r1 =>
              '(v, r2) ← scan (skip_ws r1);
              let acc' := <[key := v]> acc in
              match skip_ws r2 with
              | 125%N :: r3 => Some (VDict acc', r3)
              | 44%N :: r3 => JSONObject scan n' (skip_ws r3) acc'
              | _ => None
              end
          | _ => None
          end
      | _ => None
      end
  end.

(** The elements of an array, from the first element on. *)
Fixpoint JSONArray (scan : str -> option (value * str)) (n : nat)
    (s : str) (acc : list value) : option (value * str) :=
  match n with
  | O => None
  | S n' =>
      '(v, r) ← scan s;
      match skip_ws r with
      | 93%N :: r1 => Some (VList (reverse (v :: acc)), r1)
      | 44%N :: r1 => JSONArray scan n' (skip_ws r1) (v :: acc)
      | _ => None
      end
  end.

(** [scan_once]: one JSON value at the head of the text. *)
Fixpoint scan_once (fuel : nat) (s : str) : option (value * str) :=
  match fuel with
  | O => None
  | S n =>
      match s with
      | [] => None
      | 34%N :: t => '(x, r) ← scanstring t []; Some (VStr x, r)
      | 123%N :: t =>
          match skip_ws t with
          | 125%N :: r => Some (VDict ∅, r)
          | t' => JSONObject (scan_once n) (length t') t' ∅
          end
      | 91%N :: t =>
          match skip_ws t with
          | 93%N :: r => Some (VList [], r)
          | t' => JSONArray (scan_once n) (length t') t' []
          end
      | _ =>
          match word "null" s, word "true" s, word "false" s with
          | Some r, _, _ => Some (VNone, r)
          | _, Some r, _ => Some (VBool true, r)
          | _, _, Some r => Some (VBool false, r)
          | _, _, _ =>
              match word "NaN" s, word "Infinity" s, word "-Infinity" s with
              | Some r, _, _ => Some (VFloat FNan, r)
              | _, Some r, _ => Some (VFloat (FInf false), r)
              | _, _, Some r => Some (VFloat (FInf true), r)
              | _, _, _ => scan_number s
              end
          end
      end
  end.

(** [json.loads(s)]: [None] stands for [json.JSONDecodeError]. *)
Definition loads (s : str) : option value :=
  match scan_once (S (length s)) (skip_ws s) with
  | Some (v, r) => if bool_decide (skip_ws r = []) then Some v else None
  | None => None
  end.

End Json.


(** ** What the platform supplies

    The libraries and the configuration the handlers call into and whose
    inner workings play no part below: the Unicode table of decimal digits
    outside ASCII (used by [int(str)]), bcrypt, the HMAC that signs a token,
    and the signing secret read from the environment. *)

(** The payload of a token: the keys the server writes and reads. *)
Module Payload.
Record t := mk {
  user_id : option str;
  email : option str;
  exp : option Z
}.
End Payload.

Class Platform := {
  unicode_decimal : N -> option Z;
  bcrypt_hashpw : str -> str -> str;
  bcrypt_checkpw : str -> str -> bool;
  hmac_sha256 : str -> Payload.t -> str;
  JWT_SECRET : str
}.

(** ** [int(x)] *)

Module PyInt.

Section WithPlatform.
Context `{Platform}.

(** The value of a decimal digit; beyond ASCII the Unicode table decides. *)
Definition decimal (c : N) : option Z :=
  if Json.is_digit c then Some (Json.digit_value c)
  else if (c <? 128)%N then None
  else unicode_decimal c.

(** Digits with single underscores between them. *)
Fixpoint digits (s : str) (acc : Z) (after_digit : bool) : option Z :=
  match s with
  | [] => if after_digit then Some acc else None
  | c :: t =>
      if (c =? 95)%N then
        if after_digit then digits t acc false else None
      else
        match decimal c with
        | Some d => digits t (10 * acc + d) true
        | None => None
        end
  end.

(** White space as [int] skips it: that of [str.isspace], except the four
    separators U+001C to U+001F. *)
Definition is_space (c : N) : bool :=
  isspace c && negb ((28 <=? c) && (c <=? 31))%N.

Fixpoint skip_space (s : str) : str :=
  match s with
  | c :: t => if is_space c then skip_space t else s
  | [] => []
  end.

(** [int(s)] for a [str]: surrounding white space, an optional sign, then
    the digits. *)
Definition of_str (s : str) : result Z :=
  let body := reverse (skip_space (reverse (skip_space s))) in
  let '(neg, ds) := match body with
                    | 45%N :: t => (true, t)
                    | 43%N :: t => (false, t)
                    | _ => (false, body)
                    end in
  match digits ds 0 false with
  | Some n => Return (if neg then - n else n)
  | None => Raise ValueError
  end.

(** [int(f)] for a [float]: truncation towards zero. *)
Definition of_float (f : pyfloat) : result Z :=
  match f with
  | FFinite sign m e =>
      let a := if e <? 0 then m / 2 ^ (- e) else m * 2 ^ e in
      Return (if sign then - a else a)
  | FInf _ => Raise OverflowError
  | FNan => Raise ValueError
  end.

(** [int(x)] *)
Definition int (x : value) : result Z :=
  match x with
  | VBool b => Return (if b then 1 else 0)
  | VInt z => Return z
  | VFloat f => of_float f
  | VStr s => of_str s
  | VNone | VList _ | VDict _ => Raise TypeError
  end.

End WithPlatform.

End PyInt.

(** ** [datetime] in UTC *)

Module Datetime.

Record datetime := mk {
  year : Z; month : Z; day : Z;
  hour : Z; minute : Z; second : Z; microsecond : Z
}.

Definition is_leap (y : Z) : bool :=
  (y mod 4 =? 0) && (negb (y mod 100 =? 0) || (y mod 400 =? 0)).

Definition days_in_month (y m : Z) : Z :=
  if m =? 2 then (if is_leap y then 29 else 28)
  else if (m =? 4) || (m =? 6) || (m =? 9) || (m =? 11) then 30
  else 31.

(** The field ranges of a [datetime] object. *)
Definition valid (d : datetime) : Prop :=
  1 <= year d <= 9999 /\ 1 <= month d <= 12 /\
  1 <= day d <= days_in_month (year d) (month d) /\
  0 <= hour d < 24 /\ 0 <= minute d < 60 /\ 0 <= second d < 60 /\
  0 <= microsecond d < 1000000.

Definition validb (d : datetime) : bool :=
  (1 <=? year d) && (year d <=? 9999) && (1 <=? month d) && (month d <=? 12)
  && (1 <=? day d) && (day d <=? days_in_month (year d) (month d))
  && (0 <=? hour d) && (hour d <? 24) && (0 <=? minute d) && (minute d <? 60)
  && (0 <=? second d) && (second d <? 60)
  && (0 <=? microsecond d) && (microsecond d <? 1000000).

Definition lex (c1 c2 : comparison) : comparison :=
  match c1 with
  | Eq => c2
  | _ => c1
  end.

(** Comparison of two datetimes of the same time zone: field by field. *)
Definition compare (a b : datetime) : comparison :=
  lex (year a ?= year b) (lex (month a ?= month b) (lex (day a ?= day b)
  (lex (hour a ?= hour b) (lex (minute a ?= minute b)
  (lex (second a ?= second b) (microsecond a ?= microsecond b)))))).

(** [a <= b] *)
Definition le (a b : datetime) : Prop := compare a b <> Gt.

(** [n] written with [k] decimal digits, zero padded. *)
Fixpoint pad (k : nat) (n : Z) : str :=
  match k with
  | O => []
  | S k' => pad k' (n / 10) ++ [Z.to_N (48 + n mod 10)]
  end.

(** [d.isoformat()] for a datetime in UTC: the fraction is written only
    when the microseconds are not zero. *)
Definition isoformat (d : datetime) : str :=
  pad 4 (year d) ++ lit "-" ++ pad 2 (month d) ++ lit "-" ++ pad 2 (day d)
  ++ lit "T" ++ pad 2 (hour d) ++ lit ":" ++ pad 2 (minute d) ++ lit ":"
  ++ pad 2 (second d)
  ++ (if microsecond d =? 0 then [] else lit "." ++ pad 6 (microsecond d))
  ++ lit "+00:00".

(** Reads [k] decimal digits. *)
Fixpoint read_digits (k : nat) (s : str) (acc : Z) : option (Z * str) :=
  match k with
  | O => Some (acc, s)
  | S k' =>
      match s with
      | c :: t =>
          if Json.is_digit c
          then read_digits k' t (10 * acc + Json.digit_value c)
          else None
      | [] => None
      end
  end.

Definition expect (c : string) (s : str) : option str :=
  if startswith s (lit c) then Some (drop (length (lit c)) s) else None.

(** [datetime.fromisoformat(s)] on the texts [isoformat] writes for UTC;
    [None] stands for [ValueError]. *)
Definition fromisoformat (s : str) : option datetime :=
  '(y, s) ← read_digits 4 s 0; s ← expect "-" s;
  '(mo, s) ← read_digits 2 s 0; s ← expect "-" s;
  '(d, s) ← read_digits 2 s 0; s ← expect "T" s;
  '(h, s) ← read_digits 2 s 0; s ← expect ":" s;
  '(mi, s) ← read_digits 2 s 0; s ← expect ":" s;
  '(se, s) ← read_digits 2 s 0;
  '(us, s) ← match expect "." s with
             | Some s' => read_digits 6 s' 0
             | None => Some (0, s)
             end;
  let d := mk y mo d h mi se us in
  if bool_decide (s = lit "+00:00") && validb d then Some d else None.

End Datetime.

Export Datetime(datetime).

Arguments Datetime.isoformat : simpl never.
Arguments Datetime.fromisoformat : simpl never.
(** ** PyJWT, HS256 *)

Module Jwt.

(** A bearer token as the server receives it: either text that is not a
    signed token for HS256, or a payload with the signature it carries. *)
Inductive token :=
| Malformed (raw : str)
| Signed (payload : Payload.t) (signature : str).

Section WithPlatform.
Context `{Platform}.

(** [jwt.encode(payload, key, algorithm='HS256')] *)
Definition encode (payload : Payload.t) (key : str) : token :=
  Signed payload (hmac_sha256 key payload).

(** [jwt.decode(token, key, algorithms=['HS256'])] at clock reading [now]
    (microseconds since the epoch): the signature is checked first, then
    the expiry, when the payload has one ([exp] counts seconds). *)
Definition decode (t : token) (key : str) (now : Z) : result Payload.t :=
  match t with
  | Malformed _ => Raise InvalidTokenError
  | Signed payload signature =>
      if bool_decide (signature = hmac_sha256 key payload) then
        match Payload.exp payload with
        | Some exp =>
            if exp * 1000000 <=? now then Raise ExpiredSignatureError
            else Return payload
        | None => Return payload
        end
      else Raise InvalidTokenError
  end.

End WithPlatform.

End Jwt.

(** ** The models of server.py *)

(** [User]; [T] is the type of [created_at]: a [datetime] in the model
    object, its ISO text in the dumped dict that is stored. *)
Module User.
Record t (T : Type) := mk {
  id : str;
  email : str;
  name : str;
  password_hash : str;
  created_at : T
}.
Arguments mk {T}.
Arguments id {T}.
Arguments email {T}.
Arguments name {T}.
Arguments password_hash {T}.
Arguments created_at {T}.
End User.

Module UserRegister.
Record t := mk { email : str; name : str; password : str }.
End UserRegister.

Module UserLogin.
Record t := mk { email : str; password : str }.
End UserLogin.

(** The [user] dict of a [TokenResponse]. *)
Module UserInfo.
Record t := mk { id : str; email : str; name : str }.
End UserInfo.

Module TokenResponse.
Record t := mk { token : Jwt.token; user : UserInfo.t }.
End TokenResponse.

(** [CropAnalysis]; [T] is the type of [created_at], as for [User]. *)
Module CropAnalysis.
Record t (T : Type) := mk {
  id : str;
  user_id : str;
  crop_name : str;
  growth_stage : str;
  symptoms : str;
  soil_moisture : option Z;
  temperature : option pyfloat;
  humidity : option Z;
  image_data : option str;
  diagnosis : str;
  confidence_score : Z;
  immediate_action : str;
  sustainable_treatment : str;
  resource_efficiency_tip : str;
  risk_level : str;
  created_at : T
}.
Arguments mk {T}.
Arguments id {T}.
Arguments user_id {T}.
Arguments crop_name {T}.
Arguments growth_stage {T}.
Arguments symptoms {T}.
Arguments soil_moisture {T}.
Arguments temperature {T}.
Arguments humidity {T}.
Arguments image_data {T}.
Arguments diagnosis {T}.
Arguments confidence_score {T}.
Arguments immediate_action {T}.
Arguments sustainable_treatment {T}.
Arguments resource_efficiency_tip {T}.
Arguments risk_level {T}.
Arguments created_at {T}.

(** The same record with [created_at] rewritten, as
    [d['created_at'] = f(d['created_at'])] does. *)
Definition with_created_at {T U} (a : t T) (c : U) : t U :=
  mk (id a) (user_id a) (crop_name a) (growth_stage a) (symptoms a)
     (soil_moisture a) (temperature a) (humidity a) (image_data a)
     (diagnosis a) (confidence_score a) (immediate_action a)
     (sustainable_treatment a) (resource_efficiency_tip a) (risk_level a) c.
End CropAnalysis.

Module CropAnalysisResponse.
Record t := mk {
  id : str;
  crop_name : str;
  growth_stage : str;
  diagnosis : str;
  confidence_score : Z;
  immediate_action : str;
  sustainable_treatment : str;
  resource_efficiency_tip : str;
  risk_level : str;
  created_at : datetime
}.
End CropAnalysisResponse.

(** ** Field validation of the models (pydantic, lax mode) *)

Module Pydantic.

(** A surrogate code point: such a [str] has no UTF-8 form. *)
Definition is_surrogate (c : N) : bool := ((55296 <=? c) && (c <=? 57343))%N.

(** A field annotated [str]. *)
Definition validate_str (v : value) : result str :=
  match v with
  | VStr s => if forallb (fun c => negb (is_surrogate c)) s then Return s
              else Raise ValidationError
  | _ => Raise ValidationError
  end.

(** A field annotated [int]: an int, a bool, a float without fractional
    part, or a numeric string. *)
Definition validate_int `{Platform} (v : value) : result Z :=
  match v with
  | VInt z => Return z
  | VBool b => Return (if b then 1 else 0)
  | VFloat (FFinite sign m e) =>
      if (0 <=? e) || (m mod 2 ^ (- e) =? 0)
      then PyInt.of_float (FFinite sign m e)
      else Raise ValidationError
  | VStr s =>
      match PyInt.of_str s with
      | Return n => Return n
      | Raise _ => Raise ValidationError
      end
  | _ => Raise ValidationError
  end.

End Pydantic.

(** ** The document store *)

Module Mongo.

Record Db := mk {
  users : list (User.t str);
  analyses : list (CropAnalysis.t str)
}.

(** [find_one(filter)]: the first document that matches. *)
Definition find_one {A} (filter : A -> bool) (coll : list A) : option A :=
  head (base.filter (fun a => filter a = true) coll).

(** An int of a document must fit 8 bytes. *)
Definition bson_int (z : Z) : bool := (- 2 ^ 63 <=? z) && (z <? 2 ^ 63).

Definition bson_opt_int (o : option Z) : bool :=
  match o with
  | Some z => bson_int z
  | None => true
  end.

(** Descending order of the stored [created_at]: the order of
    [sort('created_at', -1)]. *)
Definition newer_first (a b : CropAnalysis.t str) : Prop :=
  str_le (CropAnalysis.created_at b) (CropAnalysis.created_at a).

#[global] Instance newer_first_dec a b : Decision (newer_first a b).
Proof. unfold newer_first, str_le. apply _. Defined.

(** [find(filter).sort('created_at', -1).to_list(n)] *)
Definition find_sorted (filter : CropAnalysis.t str -> bool) (n : nat)
    (coll : list (CropAnalysis.t str)) : list (CropAnalysis.t str) :=
  take n (merge_sort newer_first (base.filter (fun a => filter a = true) coll)).

End Mongo.

Export Mongo(Db).

(** ** The handlers of server.py *)

(** A handler runs on the document store and ends with a value or an
    exception; either way it leaves a store behind. *)
Definition M (A : Type) : Type := Db -> result A * Db.

Definition ret {A} (a : A) : M A := fun db => (Return a, db).

Definition raise {A} (e : exn) : M A := fun db => (Raise e, db).

Definition lift {A} (r : result A) : M A := fun db => (r, db).

Definition bindM {A B} (m : M A) (k : A -> M B) : M B :=
  fun db =>
    match m db with
    | (Return a, db') => k a db'
    | (Raise e, db') => (Raise e, db')
    end.

Notation "x <- c ;; k" := (bindM c (fun x => k))
  (at level 100, c at next level, right associativity).

(** [try: body except ...: handler] around store operations. *)
Definition try_exceptM {A} (body : M A) (handler : exn -> option (M A)) : M A :=
  fun db =>
    match body db with
    | (Return a, db') => (Return a, db')
    | (Raise e, db') =>
        match handler e with
        | Some h => h db'
        | None => (Raise e, db')
        end
    end.

Module Server.

Definition JWT_EXPIRATION_HOURS : Z := 24 * 7.

(** [await db.users.find_one(filter)] *)
Definition users_find_one (filter : User.t str -> bool) : M (option (User.t str)) :=
  fun db => (Return (Mongo.find_one filter (Mongo.users db)), db).

(** [await db.users.insert_one(doc)] *)
Definition users_insert_one (doc : User.t str) : M unit :=
  fun db => (Return tt, Mongo.mk (Mongo.users db ++ [doc]) (Mongo.analyses db)).

(** [await db.analyses.find_one(filter)] *)
Definition analyses_find_one (filter : CropAnalysis.t str -> bool)
    : M (option (CropAnalysis.t str)) :=
  fun db => (Return (Mongo.find_one filter (Mongo.analyses db)), db).

(** [await db.analyses.find(filter).sort('created_at', -1).to_list(n)] *)
Definition analyses_find_sorted (filter : CropAnalysis.t str -> bool) (n : nat)
    : M (list (CropAnalysis.t str)) :=
  fun db => (Return (Mongo.find_sorted filter n (Mongo.analyses db)), db).

(** [await db.analyses.insert_one(doc)]: a document with an int beyond
    8 bytes is refused by the encoder, and nothing is written. *)
Definition analyses_insert_one (doc : CropAnalysis.t str) : M unit :=
  fun db =>
    if Mongo.bson_int (CropAnalysis.confidence_score doc)
       && Mongo.bson_opt_int (CropAnalysis.soil_moisture doc)
       && Mongo.bson_opt_int (CropAnalysis.humidity doc)
    then (Return tt, Mongo.mk (Mongo.users db) (Mongo.analyses db ++ [doc]))
    else (Raise OverflowError, db).

(** [json.loads] as a call that may raise. *)
Definition json_loads (s : str) : result value :=
  match Json.loads s with
  | Some v => Return v
  | None => Raise JSONDecodeError
  end.

(** The bound method [result.get]: only a dict has one. *)
Definition get_method (v : value) : result (gmap str value) :=
  match v with
  | VDict d => Return d
  | _ => Raise AttributeError
  end.

(** [d.get(key, default)] *)
Definition get_default (d : gmap str value) (key : string) (dflt : value)
    : value :=
  default dflt (d !! lit key).

Section WithPlatform.
Context `{Platform}.

Definition hash_password (password salt : str) : str :=
  bcrypt_hashpw password salt.

Definition verify_password (password hashed : str) : bool :=
  bcrypt_checkpw password hashed.

(** [create_token]; [now] is the clock reading in microseconds since the
    epoch, and the expiry is written in whole seconds. *)
Definition create_token (user_id email : str) (now : Z) : Jwt.token :=
  let payload :=
    Payload.mk (Some user_id) (Some email)
      (Some ((now + JWT_EXPIRATION_HOURS * 3600 * 1000000) / 1000000)) in
  Jwt.encode payload JWT_SECRET.

Definition get_current_user (credentials : Jwt.token) (now : Z)
    : M (User.t str) :=
  try_exceptM
    (payload <- lift (Jwt.decode credentials JWT_SECRET now) ;;
     match Payload.user_id payload with
     | None | Some [] => raise (HTTPException 401 (lit "Invalid token"))
     | Some user_id =>
         user <- users_find_one
                   (fun u => bool_decide (User.id u = user_id)) ;;
         match user with
         | None => raise (HTTPException 401 (lit "User not found"))
         | Some user => ret user
         end
     end)
    (fun e =>
       match e with
       | ExpiredSignatureError =>
           Some (raise (HTTPException 401 (lit "Token expired")))
       | InvalidTokenError =>
           Some (raise (HTTPException 401 (lit "Invalid token")))
       | _ => None
       end).

(** [register]; [new_id] is the fresh uuid4 text, [salt] the output of
    [bcrypt.gensalt()], [created] and [now] the two clock readings. *)
Definition register (data : UserRegister.t) (new_id salt : str)
    (created : datetime) (now : Z) : M TokenResponse.t :=
  existing_user <- users_find_one
      (fun u => bool_decide (User.email u = UserRegister.email data)) ;;
  match existing_user with
  | Some _ => raise (HTTPException 400 (lit "Email already registered"))
  | None =>
      let user :=
        User.mk new_id (UserRegister.email data) (UserRegister.name data)
          (hash_password (UserRegister.password data) salt) created in
      let user_dict :=
        User.mk (User.id user) (User.email user) (User.name user)
          (User.password_hash user)
          (Datetime.isoformat (User.created_at user)) in
      _ <- users_insert_one user_dict ;;
      let token := create_token (User.id user) (User.email user) now in
      ret (TokenResponse.mk token
             (UserInfo.mk (User.id user) (User.email user) (User.name user)))
  end.

Definition login (data : UserLogin.t) (now : Z) : M TokenResponse.t :=
  user <- users_find_one
      (fun u => bool_decide (User.email u = UserLogin.email data)) ;;
  match user with
  | None => raise (HTTPException 401 (lit "Invalid email or password"))
  | Some user =>
      if negb (verify_password (UserLogin.password data)
                 (User.password_hash user))
      then raise (HTTPException 401 (lit "Invalid email or password"))
      else
        let token := create_token (User.id user) (User.email user) now in
        ret (TokenResponse.mk token
               (UserInfo.mk (User.id user) (User.email user) (User.name user)))
  end.

Definition get_me (current_user : User.t str) : UserInfo.t :=
  UserInfo.mk (User.id current_user) (User.email current_user)
    (User.name current_user).

(** The dict returned when the reply is not JSON. *)
Definition fallback (response : str) : gmap str value :=
  <[lit "diagnosis" := VStr (lit "Analysis completed")]> (
  <[lit "confidence_score" := VInt 75]> (
  <[lit "immediate_action" := VStr (lit "Monitor crop closely")]> (
  <[lit "sustainable_treatment" := VStr (slice_to 200 response)]> (
  <[lit "resource_efficiency_tip" :=
      VStr (lit "Implement drip irrigation to conserve water")]> (
  <[lit "risk_level" := VStr (lit "Medium")]> ∅))))).

(** The text handed to [json.loads]: the reply without surrounding white
    space and without the fence markers. *)
Definition response_text (response : str) : str :=
  let response_text := strip response in
  let response_text :=
    if startswith response_text (lit "```json")
    then slice_from 7 response_text else response_text in
  let response_text :=
    if endswith response_text (lit "```")
    then slice_to_neg 3 response_text else response_text in
  strip response_text.

(** [analyze_crop_with_ai], from the reply of the model on: [reply] is the
    outcome of [await chat.send_message(user_message)].  The prompt built
    before that call reaches the model only. *)
Definition analyze_crop_with_ai (reply : result str)
    : result (gmap str value) :=
  response ← reply;
  try_except
    (result ← json_loads (response_text response);
     d ← get_method result;
     if truthy (get_default d "confidence_score" VNone) then
       n ← PyInt.int (get_default d "confidence_score" VNone);
       Return (<[lit "confidence_score" := VInt n]> d)
     else Return d)
    (fun e =>
       match e with
       | JSONDecodeError => Some (Return (fallback response))
       | _ => None
       end).

(** [create_analysis]; [image] is the outcome of reading and re-encoding
    the upload, when there is one; [reply] the outcome of the model call;
    [new_id] and [now] the fresh uuid4 text and the clock reading. *)
Definition create_analysis (crop_name growth_stage symptoms : str)
    (soil_moisture : option Z) (temperature : option pyfloat)
    (humidity : option Z) (image : option (result str))
    (current_user : User.t str)
    (reply : result str) (new_id : str) (now : datetime)
    : M CropAnalysisResponse.t :=
  image_base64 <- lift (match image with
                        | Some r => b ← r; Return (Some b)
                        | None => Return None
                        end) ;;
  ai_result <- lift (analyze_crop_with_ai reply) ;;
  analysis <- lift (
    diagnosis ← Pydantic.validate_str
      (get_default ai_result "diagnosis" (VStr (lit "Unknown")));
    confidence_score ← Pydantic.validate_int
      (get_default ai_result "confidence_score" (VInt 0));
    immediate_action ← Pydantic.validate_str
      (get_default ai_result "immediate_action" (VStr []));
    sustainable_treatment ← Pydantic.validate_str
      (get_default ai_result "sustainable_treatment" (VStr []));
    resource_efficiency_tip ← Pydantic.validate_str
      (get_default ai_result "resource_efficiency_tip" (VStr []));
    risk_level ← Pydantic.validate_str
      (get_default ai_result "risk_level" (VStr (lit "Medium")));
    Return (CropAnalysis.mk new_id (User.id current_user) crop_name
              growth_stage symptoms soil_moisture temperature humidity
              image_base64 diagnosis confidence_score immediate_action
              sustainable_treatment resource_efficiency_tip risk_level now)) ;;
  let analysis_dict :=
    CropAnalysis.with_created_at analysis
      (Datetime.isoformat (CropAnalysis.created_at analysis)) in
  _ <- analyses_insert_one analysis_dict ;;
  ret (CropAnalysisResponse.mk (CropAnalysis.id analysis)
         (CropAnalysis.crop_name analysis) (CropAnalysis.growth_stage analysis)
         (CropAnalysis.diagnosis analysis)
         (CropAnalysis.confidence_score analysis)
         (CropAnalysis.immediate_action analysis)
         (CropAnalysis.sustainable_treatment analysis)
         (CropAnalysis.resource_efficiency_tip analysis)
         (CropAnalysis.risk_level analysis) (CropAnalysis.created_at analysis)).

End WithPlatform.

(** [analysis['created_at'] = datetime.fromisoformat(analysis['created_at'])] *)
Definition parse_created_at (a : CropAnalysis.t str)
    : result (CropAnalysis.t datetime) :=
  match Datetime.fromisoformat (CropAnalysis.created_at a) with
  | Some d => Return (CropAnalysis.with_created_at a d)
  | None => Raise ValueError
  end.

(** [for analysis in analyses: ...] *)
Fixpoint for_each {A B} (f : A -> result B) (l : list A) : result (list B) :=
  match l with
  | [] => Return []
  | a :: l' => b ← f a; bs ← for_each f l'; Return (b :: bs)
  end.

Definition response_of (a : CropAnalysis.t datetime) : CropAnalysisResponse.t :=
  CropAnalysisResponse.mk (CropAnalysis.id a) (CropAnalysis.crop_name a)
    (CropAnalysis.growth_stage a) (CropAnalysis.diagnosis a)
    (CropAnalysis.confidence_score a) (CropAnalysis.immediate_action a)
    (CropAnalysis.sustainable_treatment a)
    (CropAnalysis.resource_efficiency_tip a) (CropAnalysis.risk_level a)
    (CropAnalysis.created_at a).

Definition get_analysis_history (current_user : User.t str)
    : M (list CropAnalysisResponse.t) :=
  analyses <- analyses_find_sorted
      (fun a => bool_decide (CropAnalysis.user_id a = User.id current_user))
      100 ;;
  analyses <- lift (for_each parse_created_at analyses) ;;
  ret (response_of <$> analyses).

Definition get_analysis_detail (analysis_id : str) (current_user : User.t str)
    : M (CropAnalysis.t datetime) :=
  analysis <- analyses_find_one
      (fun a => bool_decide (CropAnalysis.id a = analysis_id)
                && bool_decide (CropAnalysis.user_id a = User.id current_user)) ;;
  match analysis with
  | None => raise (HTTPException 404 (lit "Analysis not found"))
  | Some analysis => lift (parse_created_at analysis)
  end.

End Server.

(** ** The prompt of [analyze_crop_with_ai] *)

Module Prompt.

(** The line feed of the source text. *)
Definition LF : str := [10%N].

(** The decimal digits of a number that is not negative, most significant
    first. *)
Fixpoint digits (fuel : nat) (n : Z) (acc : str) : str :=
  match fuel with
  | O => acc
  | S fuel' =>
      let acc' := Z.to_N (48 + n mod 10) :: acc in
      if n / 10 =? 0 then acc' else digits fuel' (n / 10) acc'
  end.

(** [str(n)] for an [int]. *)
Definition str_of_int (n : Z) : str :=
  if n <? 0 then 45%N :: digits (S (Z.to_nat (Z.log2 (- n)))) (- n) []
  else digits (S (Z.to_nat (Z.log2 n))) n [].

(** The dict [request_data], with the keys [create_analysis] gives it. *)
Record request_data := mk {
  crop_name : str;
  growth_stage : str;
  symptoms : str;
  soil_moisture : option Z;
  temperature : option pyfloat;
  humidity : option Z
}.

(** [if request_data.get(key):] for a reading that is an int, a float, or
    absent. *)
Definition reading_int (o : option Z) : option Z :=
  match o with
  | Some v => if truthy (VInt v) then Some v else None
  | None => None
  end.

Definition reading_float (o : option pyfloat) : option pyfloat :=
  match o with
  | Some v => if truthy (VFloat v) then Some v else None
  | None => None
  end.

Section WithRepr.

(** [str(x)] for a float: the shortest text that reads back as [x]. *)
Variable float_repr : pyfloat -> str.

(** The text sent to the model: the f-string of the three text fields,
    then one line for each reading that is truthy, the note when an image
    text is given and not empty, and the closing instruction. *)
Definition user_text (r : request_data) (image_base64 : option str) : str :=
  let user_text :=
    lit "Analyze this crop:" ++ LF
    ++ lit "Crop: " ++ crop_name r ++ LF
    ++ lit "Growth Stage: " ++ growth_stage r ++ LF
    ++ lit "Symptoms: " ++ symptoms r ++ LF in
  let user_text :=
    match reading_int (soil_moisture r) with
    | Some v =>
        user_text ++ LF ++ lit "Soil Moisture: " ++ str_of_int v ++ lit "%"
    | None => user_text
    end in
  let user_text :=
    match reading_float (temperature r) with
    | Some v =>
        user_text ++ LF ++ lit "Temperature: " ++ float_repr v
        ++ [176%N] ++ lit "C"
    | None => user_text
    end in
  let user_text :=
    match reading_int (humidity r) with
    | Some v => user_text ++ LF ++ lit "Humidity: " ++ str_of_int v ++ lit "%"
    | None => user_text
    end in
  let user_text :=
    match image_base64 with
    | Some b =>
        if truthy (VStr b) then
          user_text ++ LF ++ LF
          ++ lit "Note: Image of crop symptoms provided for visual analysis."
        else user_text
    | None => user_text
    end in
  user_text ++ LF ++ LF ++ lit "Provide analysis in JSON format only.".

End WithRepr.

End Prompt.

(** ** The rule-based recommender (crop/crop_ai.py) *)

Module CropAi.

(** How a float compares with an int ([None] for a NaN, which compares
    false either way): the comparison is exact. *)
Definition compare_int (f : pyfloat) (n : Z) : option comparison :=
  match f with
  | FNan => None
  | FInf sign => Some (if sign then Lt else Gt)
  | FFinite sign m e =>
      let v := if sign then - m else m in
      Some (if e <? 0 then (v ?= n * 2 ^ (- e)) else (v * 2 ^ e ?= n))
  end.

(** [f > n] *)
Definition gt (f : pyfloat) (n : Z) : bool :=
  bool_decide (compare_int f n = Some Gt).

(** [f < n] *)
Definition lt (f : pyfloat) (n : Z) : bool :=
  bool_decide (compare_int f n = Some Lt).

Definition identify_crop (soil : str) (rainfall temperature : pyfloat) : str :=
  if bool_decide (soil = lit "Clay") && gt rainfall 1000 then lit "Rice"
  else if bool_decide (soil = lit "Loam") && lt temperature 30 then lit "Wheat"
  else if bool_decide (soil = lit "Sandy") then lit "Maize"
  else if bool_decide (soil = lit "Black") then lit "Cotton"
  else lit "Sugarcane".

End CropAi.

(** ** A platform to run the handlers on

    Stand-ins for the libraries, used only to evaluate the handlers on
    concrete inputs; every theorem below holds for any platform. *)
Definition sample_platform : Platform := {|
  unicode_decimal := fun _ => None;
  bcrypt_hashpw := fun password salt => salt ++ lit "$" ++ password;
  bcrypt_checkpw := fun password hashed =>
    bool_decide (drop (length hashed - length password - 1) hashed
                 = lit "$" ++ password);
  hmac_sha256 := fun key payload =>
    key ++ lit "." ++ default [] (Payload.user_id payload);
  JWT_SECRET := lit "default_secret_key"
|}.

(** Sample data for the concrete runs. *)
Definition sample_user : User.t str :=
  User.mk (lit "u-1") (lit "a@x.com") (lit "A") (lit "salt$p1")
    (lit "2024-01-01T00:00:00+00:00").

Definition sample_db : Db := Mongo.mk [sample_user] [].

Definition sample_now : datetime := Datetime.mk 2024 5 6 7 8 9 0.

(** The model's reply of the worked example, bare and inside fences. *)
Definition sample_object : str :=
  js "{'diagnosis':'Early Blight','confidence_score':'85'}".

Definition sample_dict : gmap str value :=
  <[lit "confidence_score" := VStr (lit "85")]>
    (<[lit "diagnosis" := VStr (lit "Early Blight")]> ∅).

Definition newline : str := [10%N].

(** [create_analysis] on the form of the worked example, without upload:
    soil moisture 45, temperature 25.5, humidity 70. *)
Definition sample_create_analysis (response : str)
    : result CropAnalysisResponse.t * Db :=
  @Server.create_analysis sample_platform (lit "Tomato") (lit "Flowering")
    (lit "Yellowing leaves with brown spots") (Some 45)
    (Some (float_of_decimal false 255 (-1))) (Some 70) None sample_user
    (Return response) (lit "a-1") sample_now sample_db.

Definition sample_user2 : User.t str :=
  User.mk (lit "u-2") (lit "b@x.com") (lit "B") (lit "salt$p2")
    (lit "2024-01-02T00:00:00+00:00").

Definition sample_users : Db := Mongo.mk [sample_user; sample_user2] [].

Definition sample_analysis (id user_id : string) (created : datetime)
    : CropAnalysis.t str :=
  CropAnalysis.mk (lit id) (lit user_id) (lit "Tomato") (lit "Flowering")
    (lit "spots") None None None None (lit "Early Blight") 85 [] [] []
    (lit "Medium") (Datetime.isoformat created).

(** Three analyses: two of the first user, the older one stored last and
    written on a whole second, and one of the second user. *)
Definition sample_history : Db :=
  Mongo.mk [sample_user; sample_user2]
    [sample_analysis "a-1" "u-1" (Datetime.mk 2024 5 6 7 8 9 500000);
     sample_analysis "a-2" "u-2" (Datetime.mk 2024 5 6 7 8 10 0);
     sample_analysis "a-3" "u-1" (Datetime.mk 2024 5 6 7 8 9 0)].

(** ** Vocabulary of the statements *)

(** The text fields [create_analysis] reads from the analysis. *)
Definition text_fields : list string :=
  ["diagnosis"; "immediate_action"; "sustainable_treatment";
   "resource_efficiency_tip"; "risk_level"]%string.

(** Every text field that is present passes the validation of a [str]. *)
Definition text_fields_valid (d : gmap str value) : Prop :=
  forall key v, key ∈ text_fields -> d !! lit key = Some v ->
                exists s, Pydantic.validate_str v = Return s.

(** The [confidence_score], when present, is accepted: by [int] when it is
    truthy, by the validation of an [int] field when it is not; and the
    integer fits the store. *)
Definition confidence_score_valid `{Platform} (d : gmap str value) : Prop :=
  forall c, d !! lit "confidence_score" = Some c ->
    exists n, (if truthy c then PyInt.int c else Pydantic.validate_int c)
              = Return n
              /\ Mongo.bson_int n = true.

(** The upload, when there is one, was read and re-encoded. *)
Definition image_read (image : option (result str)) : Prop :=
  forall e, image <> Some (Raise e).

(** Every stored analysis carries the ISO text of a valid time stamp, as
    [create_analysis] writes it. *)
Definition created_at_written (db : Db) : Prop :=
  forall doc, doc ∈ Mongo.analyses db ->
    exists d, Datetime.valid d
              /\ CropAnalysis.created_at doc = Datetime.isoformat d.

(** Newest first: no response is older than the one after it. *)
Definition newest_first (a b : CropAnalysisResponse.t) : Prop :=
  Datetime.le (CropAnalysisResponse.created_at b)
    (CropAnalysisResponse.created_at a).

(** The analyses of a user, as the filter of the two GET handlers
    selects them. *)
Definition owned_by (U : User.t str) (a : CropAnalysis.t str) : bool :=
  bool_decide (CropAnalysis.user_id a = User.id U).

(** ** Proof steps for runs of a handler *)

(** The head test of a hypothesis is decided by cases. *)
Ltac stage H :=
  match type of H with
  | (match ?x with _ => _ end) = _ =>
      let E := fresh "E" in destruct x eqn:E; cbn in H
  | (if ?x then _ else _) = _ =>
      let E := fresh "E" in destruct x eqn:E; cbn in H
  end.

(** The first call of a chain that returned did return. *)
Ltac bind_inv H :=
  match type of H with
  | (?m ≫= _) = Return _ =>
      let E := fresh "E" in destruct m eqn:E; cbn in H; [|discriminate H]
  end.

(** * Properties *)

(** ** The embedding on sample inputs *)

Example loads_object :
  Json.loads (js "{'a': 1, 'b': [true, null, 'x\u00e9'], 'a': 2}")
  = Some (VDict (<[lit "a" := VInt 2]>
                   (<[lit "b" := VList [VBool true; VNone;
                                        VStr (lit "x" ++ [233%N])]]> ∅))).
Proof. by vm_compute. Qed.

Example loads_rejects :
  Json.loads (lit "") = None
  /\ Json.loads (js "{'a': 1,}") = None
  /\ Json.loads (lit "[1, 2") = None
  /\ Json.loads (lit "01") = None
  /\ Json.loads (js "{'a': 1} x") = None.
Proof. split_and!; by vm_compute. Qed.

Example loads_numbers :
  Json.loads (lit "[-12, 0.1, 25.5, 1e400, -0.0]")
  = Some (VList [VInt (-12);
                 VFloat (FFinite false 7205759403792794 (-56));
                 VFloat (FFinite false 7177611906121728 (-48));
                 VFloat (FInf false);
                 VFloat (FFinite true 0 0)]).
Proof. by vm_compute. Qed.

Example int_of_strings :
  @PyInt.int sample_platform (VStr (lit " +8_5 ")) = Return 85
  /\ @PyInt.int sample_platform (VStr (lit "85.0")) = Raise ValueError
  /\ @PyInt.int sample_platform (VFloat (float_of_decimal false 857 (-1)))
     = Return 85
  /\ @PyInt.int sample_platform (VList [VInt 1]) = Raise TypeError.
Proof. split_and!; by vm_compute. Qed.

Example isoformat_samples :
  Datetime.isoformat (Datetime.mk 2024 5 6 7 8 9 0)
    = lit "2024-05-06T07:08:09+00:00"
  /\ Datetime.isoformat (Datetime.mk 987 12 31 23 59 59 120)
     = lit "0987-12-31T23:59:59.000120+00:00"
  /\ Datetime.fromisoformat (lit "2023-02-29T00:00:00+00:00") = None.
Proof. split_and!; by vm_compute. Qed.

Example response_text_samples :
  Server.response_text (lit "  ```json" ++ newline ++ lit "{}" ++ newline
                        ++ lit "```" ++ newline) = lit "{}"
  /\ Server.response_text (lit "```" ++ newline ++ lit "{}" ++ newline
                           ++ lit "```") = lit "```" ++ newline ++ lit "{}".
Proof. split_and!; by vm_compute. Qed.

(** ** Strings *)

Section Strings.

Implicit Types (s p x l r : str).






Lemma startswith_app p s : startswith (p ++ s) p = true.
Proof.
  unfold startswith. apply bool_decide_eq_true.
  by rewrite take_app_length.
Qed.


Lemma endswith_app s p : endswith (s ++ p) p = true.
Proof.
  unfold endswith. apply andb_true_iff. split; apply bool_decide_eq_true.
  - rewrite length_app. lia.
  - rewrite length_app.
    replace (length s + length p - length p)%nat with (length s) by lia.
    by rewrite drop_app_length.
Qed.




End Strings.

(** ** The reply of the model *)

Section Reply.
Context `{Platform}.

Implicit Types (response body : str) (d : gmap str value).




(** [int] raises nothing but the three errors of a failed conversion. *)
Lemma int_raises (x : value) e :
  PyInt.int x = Raise e ->
  e = ValueError \/ e = TypeError \/ e = OverflowError.
Proof.
  destruct x as [|b|z|f|s|l|m]; cbn; try (intros [= <-]; tauto); try done.
  - destruct f; cbn; intros [= <-]; tauto.
  - unfold PyInt.of_str.
    destruct (reverse (PyInt.skip_space (reverse (PyInt.skip_space s))))
      as [|c t]; cbn.
    + intros [= <-]; tauto.
    + repeat case_match; intros [= <-]; tauto.
Qed.

(** What [analyze_crop_with_ai] does once the reply has parsed to a dict. *)
Lemma analyze_crop_with_ai_parsed response d :
  Json.loads (Server.response_text response) = Some (VDict d) ->
  Server.analyze_crop_with_ai (Return response) =
    match d !! lit "confidence_score" with
    | Some c =>
        if truthy c then
          n ← PyInt.int c; Return (<[lit "confidence_score" := VInt n]> d)
        else Return d
    | None => Return d
    end.
Proof.
  intros Hd. unfold Server.analyze_crop_with_ai, Server.json_loads.
  cbn. rewrite Hd. cbn. unfold Server.get_default.
  destruct (d !! lit "confidence_score") as [c|]; cbn; [|done].
  destruct (truthy c); [|done].
  destruct (PyInt.int c) as [n|e] eqn:Hint; [done|].
  by destruct (int_raises _ _ Hint) as [->|[->| ->]].
Qed.


(** ** Storing an analysis *)

(** Every run of [create_analysis]: an exception leaves the store as it
    was, and a response comes with exactly one new document, made of the
    form fields, the re-encoded upload and the validated fields of the
    analysis. *)
Lemma create_analysis_inv (crop_name growth_stage symptoms : str)
    (soil_moisture : option Z) (temperature : option pyfloat)
    (humidity : option Z) (image : option (result str))
    (current_user : User.t str) (reply : result str) (new_id : str)
    (now : datetime) (db : Db) r db' :
  Server.create_analysis crop_name growth_stage symptoms soil_moisture
    temperature humidity image current_user reply new_id now db = (r, db') ->
  match r with
  | Raise _ => db' = db
  | Return resp =>
      exists ai image_base64 diagnosis confidence_score immediate_action
             sustainable_treatment resource_efficiency_tip risk_level,
        image = option_map Return image_base64
        /\ Server.analyze_crop_with_ai reply = Return ai
        /\ Pydantic.validate_str
             (Server.get_default ai "diagnosis" (VStr (lit "Unknown")))
           = Return diagnosis
        /\ Pydantic.validate_int
             (Server.get_default ai "confidence_score" (VInt 0))
           = Return confidence_score
        /\ Pydantic.validate_str
             (Server.get_default ai "immediate_action" (VStr []))
           = Return immediate_action
        /\ Pydantic.validate_str
             (Server.get_default ai "sustainable_treatment" (VStr []))
           = Return sustainable_treatment
        /\ Pydantic.validate_str
             (Server.get_default ai "resource_efficiency_tip" (VStr []))
           = Return resource_efficiency_tip
        /\ Pydantic.validate_str
             (Server.get_default ai "risk_level" (VStr (lit "Medium")))
           = Return risk_level
        /\ db' = Mongo.mk (Mongo.users db)
                   (Mongo.analyses db ++
                    [CropAnalysis.mk new_id (User.id current_user) crop_name
                       growth_stage symptoms soil_moisture temperature
                       humidity image_base64 diagnosis confidence_score
                       immediate_action sustainable_treatment
                       resource_efficiency_tip risk_level
                       (Datetime.isoformat now)])
        /\ resp = CropAnalysisResponse.mk new_id crop_name growth_stage
                    diagnosis confidence_score immediate_action
                    sustainable_treatment resource_efficiency_tip risk_level
                    now
  end.
Proof.
  unfold Server.create_analysis, bindM, lift, ret, Server.analyses_insert_one.
  intros Hrun.
  stage Hrun; [|by inversion Hrun].
  stage Hrun; [|by inversion Hrun].
  stage Hrun; [|by inversion Hrun].
  repeat bind_inv E1. injection E1 as <-. cbn in Hrun.
  stage Hrun. stage E1; inversion E1; subst; inversion Hrun; subst; [|done].
  eexists _, _, _, _, _, _, _, _.
  split_and!; try eassumption; try reflexivity.
  destruct image as [[b|e]|]; cbn in E; by inversion E.
Qed.

Lemma create_analysis_ok (crop_name growth_stage symptoms : str)
    (soil_moisture : option Z) (temperature : option pyfloat)
    (humidity : option Z) (image : option (result str))
    (current_user : User.t str) (reply : result str) (new_id : str)
    (now : datetime) (db : Db) ai diagnosis confidence_score
    immediate_action sustainable_treatment resource_efficiency_tip
    risk_level :
  image_read image ->
  Server.analyze_crop_with_ai reply = Return ai ->
  Pydantic.validate_str
    (Server.get_default ai "diagnosis" (VStr (lit "Unknown")))
    = Return diagnosis ->
  Pydantic.validate_int (Server.get_default ai "confidence_score" (VInt 0))
    = Return confidence_score ->
  Pydantic.validate_str (Server.get_default ai "immediate_action" (VStr []))
    = Return immediate_action ->
  Pydantic.validate_str
    (Server.get_default ai "sustainable_treatment" (VStr []))
    = Return sustainable_treatment ->
  Pydantic.validate_str
    (Server.get_default ai "resource_efficiency_tip" (VStr []))
    = Return resource_efficiency_tip ->
  Pydantic.validate_str
    (Server.get_default ai "risk_level" (VStr (lit "Medium")))
    = Return risk_level ->
  Mongo.bson_int confidence_score = true ->
  Mongo.bson_opt_int soil_moisture = true ->
  Mongo.bson_opt_int humidity = true ->
  exists image_base64,
    Server.create_analysis crop_name growth_stage symptoms soil_moisture
      temperature humidity image current_user reply new_id now db
    = (Return (CropAnalysisResponse.mk new_id crop_name growth_stage
                 diagnosis confidence_score immediate_action
                 sustainable_treatment resource_efficiency_tip risk_level
                 now),
       Mongo.mk (Mongo.users db)
         (Mongo.analyses db ++
          [CropAnalysis.mk new_id (User.id current_user) crop_name
             growth_stage symptoms soil_moisture temperature humidity
             image_base64 diagnosis confidence_score immediate_action
             sustainable_treatment resource_efficiency_tip risk_level
             (Datetime.isoformat now)])).
Proof.
  intros Himg Hai H1 H2 H3 H4 H5 H6 B1 B2 B3.
  exists (match image with Some (Return b) => Some b | _ => None end).
  unfold Server.create_analysis, bindM, lift, ret, Server.analyses_insert_one.
  destruct image as [[b|e]|]; [|by destruct (Himg e)|];
    cbn; rewrite Hai; cbn; rewrite H1; cbn; rewrite H2; cbn; rewrite H3; cbn;
    rewrite H4; cbn; rewrite H5; cbn; rewrite H6; cbn;
    by rewrite B1, B2, B3.
Qed.

(** C3: when the call to the model raises (the upload, if any, having been
    read), [create_analysis] raises that same exception and the store is
    what it was; on every run that ends with an exception the store is what
    it was; and a run that returns has added exactly one document, which
    carries the form fields, the caller's id, the new id and time stamp, and
    the analysis fields the response reports. *)
Theorem create_analysis_all_or_nothing
    (crop_name growth_stage symptoms : str) (soil_moisture : option Z)
    (temperature : option pyfloat) (humidity : option Z)
    (image : option (result str)) (current_user : User.t str)
    (new_id : str) (now : datetime) (db : Db) :
  (forall e, image_read image ->
     Server.create_analysis crop_name growth_stage symptoms soil_moisture
       temperature humidity image current_user (Raise e) new_id now db
     = (Raise e, db))
  /\ (forall reply r db',
        Server.create_analysis crop_name growth_stage symptoms soil_moisture
          temperature humidity image current_user reply new_id now db
        = (r, db') ->
        match r with
        | Raise _ => db' = db
        | Return resp =>
            exists doc,
              db' = Mongo.mk (Mongo.users db) (Mongo.analyses db ++ [doc])
              /\ CropAnalysis.id doc = new_id
              /\ CropAnalysis.user_id doc = User.id current_user
              /\ CropAnalysis.crop_name doc = crop_name
              /\ CropAnalysis.growth_stage doc = growth_stage
              /\ CropAnalysis.symptoms doc = symptoms
              /\ CropAnalysis.soil_moisture doc = soil_moisture
              /\ CropAnalysis.temperature doc = temperature
              /\ CropAnalysis.humidity doc = humidity
              /\ image = option_map Return (CropAnalysis.image_data doc)
              /\ CropAnalysis.created_at doc = Datetime.isoformat now
              /\ resp = CropAnalysisResponse.mk new_id crop_name growth_stage
                          (CropAnalysis.diagnosis doc)
                          (CropAnalysis.confidence_score doc)
                          (CropAnalysis.immediate_action doc)
                          (CropAnalysis.sustainable_treatment doc)
                          (CropAnalysis.resource_efficiency_tip doc)
                          (CropAnalysis.risk_level doc) now
        end).
Proof.
  split.
  - intros e Himg.
    unfold Server.create_analysis, bindM, lift.
    destruct image as [[b|e']|]; [done|by destruct (Himg e')|done].
  - intros reply r db' Hrun. apply create_analysis_inv in Hrun.
    destruct r as [resp|e]; [|done].
    destruct Hrun as (ai & img & dg & cs & ia & st & rt & rl & Himg & _ & _
                      & _ & _ & _ & _ & _ & -> & ->).
    eexists. split; [reflexivity|]. by split_and!.
Qed.

Lemma lit_key_ne (k1 k2 : string) : k1 <> k2 -> lit k1 <> lit k2.
Proof.
  intros Hne Heq. apply Hne. unfold lit in Heq.
  apply list_fmap_eq_inj in Heq.
  - rewrite <- (String.string_of_list_ascii_of_string k1),
      <- (String.string_of_list_ascii_of_string k2). by rewrite Heq.
  - intros a b Hab.
    rewrite <- (Ascii.ascii_N_embedding a), <- (Ascii.ascii_N_embedding b).
    by rewrite Hab.
Qed.

(** A text field that is valid when present is valid after its default
    has been filled in. *)
Lemma text_field_validated d key (dflt : str) :
  key ∈ text_fields -> text_fields_valid d ->
  Pydantic.validate_str (VStr dflt) = Return dflt ->
  exists s, Pydantic.validate_str (Server.get_default d key (VStr dflt))
            = Return s
            /\ (d !! lit key = None -> s = dflt).
Proof.
  intros Hkey Hd Hdflt. unfold Server.get_default.
  destruct (d !! lit key) as [v|] eqn:Hv; cbn.
  - destruct (Hd key v Hkey Hv) as [s Hs]. by exists s.
  - by exists dflt.
Qed.

Lemma confidence_score_not_text : "confidence_score"%string ∉ text_fields.
Proof.
  unfold text_fields. rewrite !not_elem_of_cons.
  split_and!; try done. apply not_elem_of_nil.
Qed.

(** Writing the score leaves the text fields of the object as they are. *)
Lemma text_field_insert d (n : Z) key :
  key ∈ text_fields ->
  <[lit "confidence_score" := VInt n]> d !! lit key = d !! lit key.
Proof.
  intros Hkey. apply lookup_insert_ne, lit_key_ne. intros <-.
  by apply confidence_score_not_text.
Qed.

Lemma text_fields_valid_insert d (n : Z) :
  text_fields_valid d ->
  text_fields_valid (<[lit "confidence_score" := VInt n]> d).
Proof.
  intros Hd key v Hkey. rewrite text_field_insert by done. by apply Hd.
Qed.

(** A reply that parsed to an object with an acceptable score: the
    analysis is the object, with the score written back as an integer when
    it was truthy, and its score passes validation. *)
Lemma analyze_crop_with_ai_valid response d :
  Json.loads (Server.response_text response) = Some (VDict d) ->
  confidence_score_valid d ->
  exists ai n,
    Server.analyze_crop_with_ai (Return response) = Return ai
    /\ (ai = d \/ exists m, ai = <[lit "confidence_score" := VInt m]> d)
    /\ Pydantic.validate_int
         (Server.get_default ai "confidence_score" (VInt 0)) = Return n
    /\ Mongo.bson_int n = true
    /\ (d !! lit "confidence_score" = None -> n = 0).
Proof.
  intros Hd Hconf. rewrite (analyze_crop_with_ai_parsed _ d Hd).
  unfold Server.get_default.
  destruct (d !! lit "confidence_score") as [c|] eqn:Hc.
  - destruct (Hconf c Hc) as (n & Hn & Hb).
    destruct (truthy c).
    + rewrite Hn. cbn. eexists _, n. split; [done|].
      rewrite lookup_insert_eq. cbn. split_and!; eauto. done.
    + exists d, n. rewrite Hc. cbn. split_and!; eauto. done.
  - exists d, 0. rewrite Hc. by split_and!; eauto.
Qed.

(** The stored record of a valid analysis. *)
Lemma create_analysis_valid response d
    (crop_name growth_stage symptoms : str) (soil_moisture : option Z)
    (temperature : option pyfloat) (humidity : option Z)
    (image : option (result str)) (current_user : User.t str)
    (new_id : str) (now : datetime) (db : Db) :
  Json.loads (Server.response_text response) = Some (VDict d) ->
  text_fields_valid d ->
  confidence_score_valid d ->
  image_read image ->
  Mongo.bson_opt_int soil_moisture = true ->
  Mongo.bson_opt_int humidity = true ->
  exists resp doc,
    Server.create_analysis crop_name growth_stage symptoms soil_moisture
      temperature humidity image current_user (Return response) new_id now db
    = (Return resp, Mongo.mk (Mongo.users db) (Mongo.analyses db ++ [doc]))
    /\ (d !! lit "diagnosis" = None ->
        CropAnalysis.diagnosis doc = lit "Unknown")
    /\ (d !! lit "confidence_score" = None ->
        CropAnalysis.confidence_score doc = 0)
    /\ (d !! lit "immediate_action" = None ->
        CropAnalysis.immediate_action doc = [])
    /\ (d !! lit "sustainable_treatment" = None ->
        CropAnalysis.sustainable_treatment doc = [])
    /\ (d !! lit "resource_efficiency_tip" = None ->
        CropAnalysis.resource_efficiency_tip doc = [])
    /\ (d !! lit "risk_level" = None ->
        CropAnalysis.risk_level doc = lit "Medium").
Proof.
  intros Hd Htext Hconf Himg Bs Bh.
  destruct (analyze_crop_with_ai_valid _ _ Hd Hconf)
    as (ai & n & Hai & Hshape & Hn & Bn & Hn0).
  assert (Hai_text : text_fields_valid ai).
  { destruct Hshape as [->|[m ->]]; [done|by apply text_fields_valid_insert]. }
  assert (Hai_none : forall key, key ∈ text_fields ->
            d !! lit key = None -> ai !! lit key = None).
  { intros key Hkey Hnone.
    destruct Hshape as [->|[m ->]]; [done|by rewrite text_field_insert]. }
  assert (Hin : forall key, In key text_fields -> key ∈ text_fields)
    by (intros key; apply list_elem_of_In).
  destruct (text_field_validated ai "diagnosis" (lit "Unknown"))
    as (dg & Hdg & Hdg0); [apply Hin; cbn; tauto|done|done|].
  destruct (text_field_validated ai "immediate_action" [])
    as (ia & Hia & Hia0); [apply Hin; cbn; tauto|done|done|].
  destruct (text_field_validated ai "sustainable_treatment" [])
    as (st & Hst & Hst0); [apply Hin; cbn; tauto|done|done|].
  destruct (text_field_validated ai "resource_efficiency_tip" [])
    as (rt & Hrt & Hrt0); [apply Hin; cbn; tauto|done|done|].
  destruct (text_field_validated ai "risk_level" (lit "Medium"))
    as (rl & Hrl & Hrl0); [apply Hin; cbn; tauto|done|done|].
  destruct (create_analysis_ok crop_name growth_stage symptoms soil_moisture
              temperature humidity image current_user (Return response)
              new_id now db ai dg n ia st rt rl) as [img Hrun]; try done.
  eexists _, _. split; [exact Hrun|]. cbn.
  split_and!; intros Hnone; [apply Hdg0|by apply Hn0|apply Hia0|apply Hst0
                             |apply Hrt0|apply Hrl0];
    apply Hai_none; try done; apply Hin; cbn; tauto.
Qed.

(** No run of [analyze_crop_with_ai] ends with the decode error. *)
Lemma analyze_crop_with_ai_no_decode_error (reply : result str) :
  (forall e, reply = Raise e -> e <> JSONDecodeError) ->
  Server.analyze_crop_with_ai reply <> Raise JSONDecodeError.
Proof.
  intros Hreply. destruct reply as [response|e]; [|by intros [= ->]; eapply Hreply].
  unfold Server.analyze_crop_with_ai, Server.json_loads. cbn.
  destruct (Json.loads _) as [v|]; cbn; [|done].
  destruct v; cbn; try done.
  destruct (truthy _); [|done].
  destruct (PyInt.int _) as [n|e] eqn:Hint; cbn; [done|].
  by destruct (int_raises _ _ Hint) as [->|[->| ->]].
Qed.


(** C9: when the reply parses to an object whose [confidence_score] is the
    string 85, [analyze_crop_with_ai] returns the object with the integer 85
    in its place; every record [create_analysis] then stores, and the
    response it returns, carry the integer 85; and the record is stored
    whenever the upload was read, the text fields that are present are
    valid and the readings of the form fit the store. *)
Theorem confidence_score_string_85 response d
    (crop_name growth_stage symptoms : str) (soil_moisture : option Z)
    (temperature : option pyfloat) (humidity : option Z)
    (image : option (result str)) (current_user : User.t str)
    (new_id : str) (now : datetime) (db : Db) :
  Json.loads (Server.response_text response) = Some (VDict d) ->
  d !! lit "confidence_score" = Some (VStr (lit "85")) ->
  let run := Server.create_analysis crop_name growth_stage symptoms
               soil_moisture temperature humidity image current_user
               (Return response) new_id now db in
  Server.analyze_crop_with_ai (Return response)
    = Return (<[lit "confidence_score" := VInt 85]> d)
  /\ (forall r db', run = (Return r, db') ->
        exists doc,
          Mongo.analyses db' = Mongo.analyses db ++ [doc]
          /\ CropAnalysis.confidence_score doc = 85
          /\ CropAnalysisResponse.confidence_score r = 85)
  /\ (text_fields_valid d -> image_read image ->
      Mongo.bson_opt_int soil_moisture = true ->
      Mongo.bson_opt_int humidity = true ->
      exists r db', run = (Return r, db')).
Proof.
  intros Hd Hc run.
  assert (Hai : Server.analyze_crop_with_ai (Return response)
                = Return (<[lit "confidence_score" := VInt 85]> d)).
  { rewrite (analyze_crop_with_ai_parsed _ d Hd), Hc. reflexivity. }
  split_and!; [done| |].
  - intros r db' Hrun. apply create_analysis_inv in Hrun.
    destruct Hrun as (ai & img & dg & cs & ia & st & rt & rl & _ & Hai' & _
                      & Hcs & _ & _ & _ & _ & -> & ->).
    rewrite Hai in Hai'. injection Hai' as <-.
    unfold Server.get_default in Hcs. rewrite lookup_insert_eq in Hcs.
    injection Hcs as <-. by eexists.
  - intros Htext Himg Bs Bh.
    destruct (create_analysis_valid response d crop_name growth_stage
                symptoms soil_moisture temperature humidity image
                current_user new_id now db) as (r & doc & Hrun & _); try done.
    + intros c Hc'. rewrite Hc in Hc'. injection Hc' as <-. by exists 85.
    + by eexists _, _.
Qed.

(** C10 (amended): for every reply that parses to an object whose present
    fields are acceptable (each text field a valid string, the score
    accepted by [int] or by the validation of the record and within the
    range of the store), with the upload read and the readings of the form
    within the range of the store, [create_analysis] stores a complete
    record in which every absent field has its default: diagnosis Unknown,
    score 0, empty action, treatment and tip, risk level Medium. *)
Theorem create_analysis_defaults response d
    (crop_name growth_stage symptoms : str) (soil_moisture : option Z)
    (temperature : option pyfloat) (humidity : option Z)
    (image : option (result str)) (current_user : User.t str)
    (new_id : str) (now : datetime) (db : Db) :
  Json.loads (Server.response_text response) = Some (VDict d) ->
  text_fields_valid d ->
  confidence_score_valid d ->
  image_read image ->
  Mongo.bson_opt_int soil_moisture = true ->
  Mongo.bson_opt_int humidity = true ->
  exists resp doc,
    Server.create_analysis crop_name growth_stage symptoms soil_moisture
      temperature humidity image current_user (Return response) new_id now db
    = (Return resp, Mongo.mk (Mongo.users db) (Mongo.analyses db ++ [doc]))
    /\ (d !! lit "diagnosis" = None ->
        CropAnalysis.diagnosis doc = lit "Unknown")
    /\ (d !! lit "confidence_score" = None ->
        CropAnalysis.confidence_score doc = 0)
    /\ (d !! lit "immediate_action" = None ->
        CropAnalysis.immediate_action doc = [])
    /\ (d !! lit "sustainable_treatment" = None ->
        CropAnalysis.sustainable_treatment doc = [])
    /\ (d !! lit "resource_efficiency_tip" = None ->
        CropAnalysis.resource_efficiency_tip doc = [])
    /\ (d !! lit "risk_level" = None ->
        CropAnalysis.risk_level doc = lit "Medium").
Proof. apply create_analysis_valid. Qed.

End Reply.

(** ** Concrete runs *)





Lemma confidence_score_string_85_witness :
  exists r db',
    sample_create_analysis sample_object = (Return r, db')
    /\ exists doc,
         Mongo.analyses db' = Mongo.analyses sample_db ++ [doc]
         /\ CropAnalysis.confidence_score doc = 85
         /\ CropAnalysisResponse.confidence_score r = 85.
Proof.
  destruct (confidence_score_string_85 (H := sample_platform) sample_object
              sample_dict (lit "Tomato") (lit "Flowering")
              (lit "Yellowing leaves with brown spots") (Some 45)
              (Some (float_of_decimal false 255 (-1))) (Some 70) None
              sample_user (lit "a-1") sample_now sample_db)
    as (_ & Hstored & Hruns); [by vm_compute|by vm_compute|].
  destruct Hruns as (r & db' & Hrun); [|done|done|done|].
  - intros key v _ Hv. unfold sample_dict in Hv.
    destruct (decide (lit key = lit "confidence_score")) as [Hk|Hk].
    { rewrite Hk, lookup_insert_eq in Hv. injection Hv as <-. by eexists. }
    rewrite lookup_insert_ne in Hv by done.
    destruct (decide (lit key = lit "diagnosis")) as [Hk'|Hk'].
    + rewrite Hk', lookup_insert_eq in Hv. injection Hv as <-. by eexists.
    + by rewrite lookup_insert_ne in Hv.
  - exists r, db'. split; [exact Hrun|]. exact (Hstored r db' Hrun).
Defined.

Lemma create_analysis_defaults_witness :
  exists resp doc,
    sample_create_analysis (js "{'diagnosis':'Early Blight'}")
    = (Return resp,
       Mongo.mk (Mongo.users sample_db) (Mongo.analyses sample_db ++ [doc]))
    /\ CropAnalysis.confidence_score doc = 0
    /\ CropAnalysis.immediate_action doc = []
    /\ CropAnalysis.risk_level doc = lit "Medium".
Proof.
  destruct (create_analysis_defaults (H := sample_platform)
              (js "{'diagnosis':'Early Blight'}")
              {[lit "diagnosis" := VStr (lit "Early Blight")]}
              (lit "Tomato") (lit "Flowering")
              (lit "Yellowing leaves with brown spots") (Some 45)
              (Some (float_of_decimal false 255 (-1))) (Some 70) None
              sample_user (lit "a-1") sample_now sample_db)
    as (resp & doc & Hrun & _ & Hscore & Haction & _ & _ & Hrisk);
    [by vm_compute| | |done|done|done|].
  - intros key v _ Hv.
    destruct (decide (lit key = lit "diagnosis")) as [Hk|Hk].
    + rewrite Hk, lookup_singleton_eq in Hv. injection Hv as <-. by eexists.
    + by rewrite lookup_singleton_ne in Hv.
  - intros c Hc. by vm_compute in Hc.
  - exists resp, doc. split_and!;
      [exact Hrun|by apply Hscore|by apply Haction|by apply Hrisk].
Defined.

(** C10, as stated, fails: the reply parses to an object without
    [risk_level] (and four more fields), yet its [diagnosis] is null, the
    record is refused by validation and nothing is stored. *)
Lemma create_analysis_defaults_counterexample :
  Json.loads (Server.response_text (js "{'diagnosis': null}"))
    = Some (VDict {[lit "diagnosis" := VNone]})
  /\ ({[lit "diagnosis" := VNone]} : gmap str value) !! lit "risk_level"
     = None
  /\ sample_create_analysis (js "{'diagnosis': null}")
     = (Raise ValidationError, sample_db).
Proof. split_and!; by vm_compute. Qed.

(** ** Lookups in a collection *)

Section FindOne.
Context {A : Type}.
Implicit Types (f : A -> bool) (l : list A).

Lemma find_one_cons f a l :
  Mongo.find_one f (a :: l) = if f a then Some a else Mongo.find_one f l.
Proof.
  unfold Mongo.find_one. rewrite filter_cons.
  destruct (f a); by case_decide.
Qed.

Lemma find_one_Some f l x :
  Mongo.find_one f l = Some x -> x ∈ l /\ f x = true.
Proof.
  induction l as [|a l IH]; [done|]. rewrite find_one_cons.
  destruct (f a) eqn:Hfa.
  - intros [= <-]. split; [left|done].
  - intros Hx. destruct (IH Hx). split; [by right|done].
Qed.

Lemma find_one_None f l :
  Mongo.find_one f l = None <-> forall x, x ∈ l -> f x = false.
Proof.
  induction l as [|a l IH].
  - split; [intros _ x Hx; by apply elem_of_nil in Hx|done].
  - rewrite find_one_cons. destruct (f a) eqn:Hfa.
    + split; [done|]. intros Hall. specialize (Hall a). rewrite Hfa in Hall.
      discriminate Hall. left.
    + rewrite IH. split.
      * intros Hall x [->|Hx]%elem_of_cons; [done|by apply Hall].
      * intros Hall x Hx. apply Hall. by right.
Qed.

(** A document is found under a key that no other document carries. *)
Lemma find_one_unique {K} `{EqDecision K} (key : A -> K) l x :
  x ∈ l -> NoDup (key <$> l) ->
  Mongo.find_one (fun a => bool_decide (key a = key x)) l = Some x.
Proof.
  induction l as [|a l IH]; [by intros ?%elem_of_nil|].
  rewrite fmap_cons, NoDup_cons, find_one_cons.
  intros [->|Hx]%elem_of_cons [Ha Hnd].
  - by rewrite bool_decide_eq_true_2.
  - rewrite bool_decide_eq_false_2; [by apply IH|].
    intros Heq. apply Ha. rewrite Heq. by apply list_elem_of_fmap_2.
Qed.

End FindOne.

(** ** Registration, login and tokens *)

Section Auth.
Context `{Platform}.

(** C7: on a store that already holds a user with the email, [register]
    raises 400 (Email already registered) and the store is what it was; on a
    store without it, [register] returns and adds exactly one user, whose
    record holds the bcrypt hash of the password under the fresh salt (the
    password enters the record in no other way); and either way a store
    without duplicate emails stays without duplicate emails. *)
Theorem register_duplicate_email (data : UserRegister.t) (new_id salt : str)
    (created : datetime) (now : Z) (db : Db) :
  ((exists u, u ∈ Mongo.users db
              /\ User.email u = UserRegister.email data) ->
   Server.register data new_id salt created now db
   = (Raise (HTTPException 400 (lit "Email already registered")), db))
  /\ ((forall u, u ∈ Mongo.users db ->
                 User.email u <> UserRegister.email data) ->
      Server.register data new_id salt created now db
      = (Return (TokenResponse.mk
                   (Server.create_token new_id (UserRegister.email data) now)
                   (UserInfo.mk new_id (UserRegister.email data)
                      (UserRegister.name data))),
         Mongo.mk
           (Mongo.users db ++
            [User.mk new_id (UserRegister.email data) (UserRegister.name data)
               (bcrypt_hashpw (UserRegister.password data) salt)
               (Datetime.isoformat created)])
           (Mongo.analyses db)))
  /\ (NoDup (User.email <$> Mongo.users db) ->
      NoDup (User.email <$>
             Mongo.users (Server.register data new_id salt created now db).2)).
Proof.
  unfold Server.register, bindM, Server.users_find_one,
    Server.users_insert_one, raise, ret.
  destruct (Mongo.find_one _ (Mongo.users db)) as [u|] eqn:Hfind.
  - apply find_one_Some in Hfind as [Hu Hmail].
    apply bool_decide_eq_true in Hmail.
    split_and!; [done| |done].
    intros Hfresh. by destruct (Hfresh u Hu).
  - pose proof (proj1 (find_one_None _ _) Hfind) as Hfresh.
    split_and!; [|done|].
    + intros (u & Hu & Hmail). specialize (Hfresh u Hu).
      by apply bool_decide_eq_false in Hfresh.
    + cbn. intros Hnd. rewrite fmap_app. apply NoDup_app.
      split_and!; [done| |apply NoDup_singleton].
      intros e (u & -> & Hu)%list_elem_of_fmap Hin.
      apply list_elem_of_singleton in Hin. cbn in Hin.
      specialize (Hfresh u Hu). by apply bool_decide_eq_false in Hfresh.
Qed.

(** C5: a login with an email the store does not hold and a login with a
    stored email and a password that does not verify raise the same
    exception, 401 with the same detail, and leave their stores as they
    were; and every login that raises raises that exception. *)
Theorem login_failures_uniform (db1 db2 : Db) (data1 data2 : UserLogin.t)
    (now1 now2 : Z) (user : User.t str) :
  (forall u, u ∈ Mongo.users db1 -> User.email u <> UserLogin.email data1) ->
  Mongo.find_one
    (fun u => bool_decide (User.email u = UserLogin.email data2))
    (Mongo.users db2) = Some user ->
  Server.verify_password (UserLogin.password data2) (User.password_hash user)
    = false ->
  Server.login data1 now1 db1
    = (Raise (HTTPException 401 (lit "Invalid email or password")), db1)
  /\ Server.login data2 now2 db2
     = (Raise (HTTPException 401 (lit "Invalid email or password")), db2)
  /\ (Server.login data1 now1 db1).1 = (Server.login data2 now2 db2).1
  /\ (forall data now db e db',
        Server.login data now db = (Raise e, db') ->
        e = HTTPException 401 (lit "Invalid email or password") /\ db' = db).
Proof.
  intros Hunknown Hknown Hwrong.
  assert (H1 : Server.login data1 now1 db1
    = (Raise (HTTPException 401 (lit "Invalid email or password")), db1)).
  { unfold Server.login, bindM, Server.users_find_one, raise.
    replace (Mongo.find_one _ (Mongo.users db1)) with (@None (User.t str));
      [done|].
    symmetry. apply find_one_None. intros u Hu.
    apply bool_decide_eq_false. by apply Hunknown. }
  assert (H2 : Server.login data2 now2 db2
    = (Raise (HTTPException 401 (lit "Invalid email or password")), db2)).
  { unfold Server.login, bindM, Server.users_find_one, raise.
    by rewrite Hknown, Hwrong. }
  split_and!; [done|done|by rewrite H1, H2|].
  intros data now db e db'.
  unfold Server.login, bindM, Server.users_find_one, raise, ret.
  destruct (Mongo.find_one _ (Mongo.users db)) as [u|]; [|by intros [= <- <-]].
  destruct (negb _); by intros [= <- <-].
Qed.

(** C6: a token made by [create_token] for the id of a stored user A,
    presented before its expiry on a store with non-empty unique ids,
    resolves to A; at no time does it resolve to another stored user B; from
    its expiry on it is refused with 401 Token expired, which differs from
    the errors of a bad signature (Invalid token) and of a token whose user
    is gone (User not found). *)
Theorem token_resolves_to_its_user (db : Db) (A B : User.t str)
    (now0 now1 : Z) :
  let token := Server.create_token (User.id A) (User.email A) now0 in
  let exp := (now0 + 604800000000) / 1000000 in
  A ∈ Mongo.users db -> B ∈ Mongo.users db -> A <> B ->
  NoDup (User.id <$> Mongo.users db) ->
  User.id A <> [] ->
  (now1 < exp * 1000000 ->
     Server.get_current_user token now1 db = (Return A, db))
  /\ (forall now, (Server.get_current_user token now db).1 <> Return B)
  /\ (exp * 1000000 <= now1 ->
      Server.get_current_user token now1 db
      = (Raise (HTTPException 401 (lit "Token expired")), db))
  /\ (forall payload signature,
        signature <> hmac_sha256 JWT_SECRET payload ->
        Server.get_current_user (Jwt.Signed payload signature) now1 db
        = (Raise (HTTPException 401 (lit "Invalid token")), db))
  /\ (forall db2, (forall u, u ∈ Mongo.users db2 -> User.id u <> User.id A) ->
        now1 < exp * 1000000 ->
        Server.get_current_user token now1 db2
        = (Raise (HTTPException 401 (lit "User not found")), db2))
  /\ HTTPException 401 (lit "Token expired")
     <> HTTPException 401 (lit "Invalid token")
  /\ HTTPException 401 (lit "Token expired")
     <> HTTPException 401 (lit "User not found").
Proof.
  intros token exp HA HB Hne Hnd Hid.
  assert (Hfind : Mongo.find_one
            (fun u => bool_decide (User.id u = User.id A)) (Mongo.users db)
            = Some A) by (by apply find_one_unique).
  assert (Hrun : forall now db0,
    Server.get_current_user token now db0 =
    if exp * 1000000 <=? now
    then (Raise (HTTPException 401 (lit "Token expired")), db0)
    else match Mongo.find_one
                 (fun u => bool_decide (User.id u = User.id A))
                 (Mongo.users db0) with
         | Some u => (Return u, db0)
         | None => (Raise (HTTPException 401 (lit "User not found")), db0)
         end).
  { intros now db0.
    unfold Server.get_current_user, try_exceptM, bindM, lift, token,
      Server.create_token, Jwt.encode, Jwt.decode, Server.users_find_one,
      raise, ret, Server.JWT_EXPIRATION_HOURS.
    rewrite bool_decide_eq_true_2 by done. cbn [Payload.exp Payload.user_id].
    change ((now0 + 24 * 7 * 3600 * 1000000) `div` 1000000) with exp.
    destruct (exp * 1000000 <=? now); [done|].
    destruct (User.id A) as [|c s] eqn:HidA; [done|].
    cbn [Payload.user_id].
    by destruct (Mongo.find_one _ (Mongo.users db0)). }
  split_and!.
  - intros Hbefore. rewrite Hrun, Hfind.
    by destruct (Z.leb_spec (exp * 1000000) now1); [lia|].
  - intros now. rewrite Hrun, Hfind.
    destruct (exp * 1000000 <=? now); cbn; congruence.
  - intros Hafter. rewrite Hrun.
    by destruct (Z.leb_spec (exp * 1000000) now1); [|lia].
  - intros payload signature Hsig.
    unfold Server.get_current_user, try_exceptM, bindM, lift, Jwt.decode,
      raise.
    by rewrite bool_decide_eq_false_2.
  - intros db2 Hgone Hbefore. rewrite Hrun.
    destruct (Z.leb_spec (exp * 1000000) now1); [lia|].
    replace (Mongo.find_one _ (Mongo.users db2)) with (@None (User.t str));
      [done|].
    symmetry. apply find_one_None. intros u Hu.
    apply bool_decide_eq_false. by apply Hgone.
  - by vm_compute.
  - by vm_compute.
Qed.

End Auth.

(** ** The order of strings *)

Section StrOrder.
Implicit Types (a b c u v : str).

Lemma str_compare_refl a : str_compare a a = Eq.
Proof. induction a as [|x a IH]; [done|]. cbn. by rewrite N.compare_refl. Qed.

Lemma str_compare_antisym a b : str_compare b a = CompOpp (str_compare a b).
Proof.
  revert b. induction a as [|x a IH]; intros [|y b]; cbn; try done.
  rewrite (N.compare_antisym x y). destruct (x ?= y)%N; cbn; [apply IH|done..].
Qed.

Lemma str_compare_eq a b : str_compare a b = Eq -> a = b.
Proof.
  revert b. induction a as [|x a IH]; intros [|y b]; cbn; try done.
  destruct (N.compare_spec x y) as [->| |]; try done.
  intros Hab. by rewrite (IH b Hab).
Qed.

Lemma str_compare_lt_trans a b c :
  str_compare a b = Lt -> str_compare b c = Lt -> str_compare a c = Lt.
Proof.
  revert b c. induction a as [|x a IH]; intros [|y b] [|z c]; cbn; try done.
  destruct (N.compare_spec x y) as [->|Hxy|Hxy]; try done.
  - destruct (z ?= y)%N eqn:Hyz; rewrite (N.compare_antisym z y), Hyz; cbn;
      try done. apply IH.
  - intros _. destruct (N.compare_spec y z) as [->|Hyz|Hyz]; try done.
    + intros _. by apply N.compare_lt_iff in Hxy as ->.
    + intros _. assert (Hxz : (x < z)%N) by lia.
      by apply N.compare_lt_iff in Hxz as ->.
Qed.

Lemma str_le_trans a b c : str_le a b -> str_le b c -> str_le a c.
Proof.
  unfold str_le. intros Hab Hbc.
  destruct (str_compare a b) eqn:Eab; [|clear Hab|done].
  - by apply str_compare_eq in Eab as ->.
  - destruct (str_compare b c) eqn:Ebc; [|clear Hbc|done].
    + apply str_compare_eq in Ebc as <-. by rewrite Eab.
    + by rewrite (str_compare_lt_trans a b c).
Qed.

Lemma str_le_total a b : str_le a b \/ str_le b a.
Proof.
  unfold str_le. rewrite (str_compare_antisym a b).
  destruct (str_compare a b); cbn; auto.
Qed.

(** Two texts that begin with parts of one length compare by these parts
    first. *)
Lemma str_compare_app a b u v :
  length a = length b ->
  str_compare (a ++ u) (b ++ v)
  = Datetime.lex (str_compare a b) (str_compare u v).
Proof.
  revert b. induction a as [|x a IH]; intros [|y b]; cbn; try done.
  intros [= Hlen]. destruct (x ?= y)%N; [by apply IH|done..].
Qed.

#[global] Instance newer_first_trans : Transitive Mongo.newer_first.
Proof. intros x y z Hxy Hyz. exact (str_le_trans _ _ _ Hyz Hxy). Qed.

#[global] Instance newer_first_total : Total Mongo.newer_first.
Proof. intros x y. apply str_le_total. Qed.

End StrOrder.

(** ** ISO time stamps *)

Section Iso.
Import Datetime.

Lemma lex_Eq_r c : lex c Eq = c.
Proof. by destruct c. Qed.

(** The character of a decimal digit. *)
Lemma digit_char r :
  0 <= r < 10 ->
  Json.is_digit (Z.to_N (48 + r)) = true
  /\ Json.digit_value (Z.to_N (48 + r)) = r.
Proof.
  intros Hr. unfold Json.is_digit, Json.digit_value. split.
  - apply andb_true_iff. split; apply N.leb_le; lia.
  - lia.
Qed.

Lemma length_pad k n : length (pad k n) = k.
Proof.
  revert n. induction k as [|k IH]; intros n; [done|].
  cbn. rewrite length_app, IH. cbn. lia.
Qed.

(** Comparing by the leading digits, then by the last one. *)
Lemma compare_div_mod a b :
  (a ?= b) = lex (a / 10 ?= b / 10) (a mod 10 ?= b mod 10).
Proof.
  pose proof (Z.div_mod a 10 ltac:(lia)) as Ha.
  pose proof (Z.div_mod b 10 ltac:(lia)) as Hb.
  pose proof (Z.mod_pos_bound a 10 ltac:(lia)).
  pose proof (Z.mod_pos_bound b 10 ltac:(lia)).
  destruct (Z.compare_spec (a / 10) (b / 10)) as [Hq|Hq|Hq]; cbn.
  - destruct (Z.compare_spec (a mod 10) (b mod 10)) as [Hr|Hr|Hr].
    + apply Z.compare_eq_iff. lia.
    + apply Z.compare_lt_iff. lia.
    + apply Z.compare_gt_iff. lia.
  - apply Z.compare_lt_iff. lia.
  - apply Z.compare_gt_iff. lia.
Qed.

(** Zero-padded numbers of one width compare as texts the way they compare
    as numbers. *)
Lemma pad_compare k a b :
  0 <= a < 10 ^ Z.of_nat k -> 0 <= b < 10 ^ Z.of_nat k ->
  str_compare (pad k a) (pad k b) = (a ?= b).
Proof.
  revert a b. induction k as [|k IH]; intros a b Ha Hb.
  - cbn in *. symmetry. apply Z.compare_eq_iff. lia.
  - rewrite Nat2Z.inj_succ, Z.pow_succ_r in Ha, Hb by lia.
    cbn [pad]. rewrite str_compare_app by (by rewrite !length_pad).
    rewrite IH by (split; [apply Z.div_pos|apply Z.div_lt_upper_bound]; lia).
    rewrite (compare_div_mod a b). f_equal. cbn [str_compare].
    pose proof (Z.mod_pos_bound a 10 ltac:(lia)).
    pose proof (Z.mod_pos_bound b 10 ltac:(lia)).
    rewrite Z2N.inj_compare by lia.
    rewrite Z.add_compare_mono_l.
    by destruct (a mod 10 ?= b mod 10).
Qed.

Lemma str_compare_sep (c : string) u v :
  str_compare (lit c ++ u) (lit c ++ v) = str_compare u v.
Proof.
  rewrite str_compare_app by done. by rewrite str_compare_refl.
Qed.

(** On valid datetimes the ISO texts are ordered as the datetimes are. *)
Lemma isoformat_compare a b :
  valid a -> valid b ->
  str_compare (isoformat a) (isoformat b) = compare a b.
Proof.
  intros (Hy & Hmo & Hd & Hh & Hmi & Hs & Hus)
         (Hy' & Hmo' & Hd' & Hh' & Hmi' & Hs' & Hus').
  assert (Hdim : forall y m, days_in_month y m <= 31).
  { intros y m. unfold days_in_month. repeat case_match; lia. }
  pose proof (Hdim (year a) (month a)). pose proof (Hdim (year b) (month b)).
  unfold isoformat, compare.
  rewrite str_compare_app, pad_compare by (rewrite ?length_pad; cbn; lia).
  f_equal. rewrite str_compare_sep.
  rewrite str_compare_app, pad_compare by (rewrite ?length_pad; cbn; lia).
  f_equal. rewrite str_compare_sep.
  rewrite str_compare_app, pad_compare by (rewrite ?length_pad; cbn; lia).
  f_equal. rewrite str_compare_sep.
  rewrite str_compare_app, pad_compare by (rewrite ?length_pad; cbn; lia).
  f_equal. rewrite str_compare_sep.
  rewrite str_compare_app, pad_compare by (rewrite ?length_pad; cbn; lia).
  f_equal. rewrite str_compare_sep.
  rewrite str_compare_app, pad_compare by (rewrite ?length_pad; cbn; lia).
  f_equal.
  destruct (Z.eqb_spec (microsecond a) 0) as [Ha|Ha],
           (Z.eqb_spec (microsecond b) 0) as [Hb|Hb].
  - rewrite Ha, Hb. apply str_compare_refl.
  - rewrite Ha. transitivity Lt; [done|].
    symmetry. apply Z.compare_lt_iff. lia.
  - rewrite Hb. transitivity Gt; [done|].
    symmetry. apply Z.compare_gt_iff. lia.
  - rewrite <- !app_assoc, str_compare_sep.
    rewrite str_compare_app, pad_compare by (rewrite ?length_pad; cbn; lia).
    by rewrite str_compare_refl, lex_Eq_r.
Qed.

Lemma isoformat_le a b :
  valid a -> valid b -> str_le (isoformat a) (isoformat b) -> le a b.
Proof. intros Ha Hb. unfold str_le, le. by rewrite isoformat_compare. Qed.

End Iso.

Section IsoRoundTrip.
Import Datetime.

Lemma read_digits_snoc k s acc :
  read_digits (S k) s acc
  = '(v, r) ← read_digits k s acc; read_digits 1 r v.
Proof.
  revert s acc. induction k as [|k IH]; intros s acc; [done|].
  destruct s as [|c t]; [done|].
  change (read_digits (S (S k)) (c :: t) acc)
    with (if Json.is_digit c
          then read_digits (S k) t (10 * acc + Json.digit_value c) else None).
  change (read_digits (S k) (c :: t) acc)
    with (if Json.is_digit c
          then read_digits k t (10 * acc + Json.digit_value c) else None).
  destruct (Json.is_digit c); [apply IH|done].
Qed.

(** Reading back a zero-padded number. *)
Lemma read_digits_pad k n rest acc :
  0 <= n < 10 ^ Z.of_nat k ->
  read_digits k (pad k n ++ rest) acc
  = Some (acc * 10 ^ Z.of_nat k + n, rest).
Proof.
  revert n rest acc. induction k as [|k IH]; intros n rest acc Hn.
  - cbn in *. do 2 f_equal. lia.
  - rewrite Nat2Z.inj_succ, Z.pow_succ_r in * by lia.
    rewrite read_digits_snoc. cbn [pad]. rewrite <- app_assoc.
    rewrite IH by (split; [apply Z.div_pos|apply Z.div_lt_upper_bound]; lia).
    cbn. pose proof (Z.mod_pos_bound n 10 ltac:(lia)) as Hr.
    destruct (digit_char (n mod 10) Hr) as [-> ->].
    do 2 f_equal. pose proof (Z.div_mod n 10 ltac:(lia)). lia.
Qed.

Lemma expect_app (c : string) s : expect c (lit c ++ s) = Some s.
Proof.
  unfold expect. by rewrite startswith_app, drop_app_length.
Qed.

Lemma validb_true d : valid d -> validb d = true.
Proof.
  intros (Hy & Hmo & Hd & Hh & Hmi & Hs & Hus). unfold validb.
  repeat (apply andb_true_iff; split);
    first [apply Z.leb_le | apply Z.ltb_lt]; lia.
Qed.

(** [fromisoformat] reads back what [isoformat] wrote. *)
Lemma fromisoformat_isoformat d :
  valid d -> fromisoformat (isoformat d) = Some d.
Proof.
  intros Hv. pose proof (validb_true d Hv) as Hvb.
  destruct Hv as (Hy & Hmo & Hd & Hh & Hmi & Hs & Hus).
  assert (Hdim : days_in_month (year d) (month d) <= 31).
  { unfold days_in_month. repeat case_match; lia. }
  unfold fromisoformat, isoformat.
  rewrite read_digits_pad by (cbn; lia). cbn [mbind option_bind].
  rewrite expect_app. cbn [mbind option_bind].
  rewrite read_digits_pad by (cbn; lia). cbn [mbind option_bind].
  rewrite expect_app. cbn [mbind option_bind].
  rewrite read_digits_pad by (cbn; lia). cbn [mbind option_bind].
  rewrite expect_app. cbn [mbind option_bind].
  rewrite read_digits_pad by (cbn; lia). cbn [mbind option_bind].
  rewrite expect_app. cbn [mbind option_bind].
  rewrite read_digits_pad by (cbn; lia). cbn [mbind option_bind].
  rewrite expect_app. cbn [mbind option_bind].
  rewrite read_digits_pad by (cbn; lia). cbn [mbind option_bind].
  destruct d as [y mo dd h mi se us]. cbn [year month day hour minute second
    microsecond] in *.
  rewrite !Z.mul_0_l, !Z.add_0_l.
  destruct (Z.eqb_spec us 0) as [->|Hne].
  - cbn [app]. change (expect "." (lit "+00:00")) with (@None str).
    cbn [mbind option_bind]. rewrite bool_decide_eq_true_2 by done.
    by rewrite Hvb.
  - rewrite <- app_assoc, expect_app.
    rewrite read_digits_pad by (cbn; lia). cbn [mbind option_bind].
    rewrite bool_decide_eq_true_2 by done. rewrite Z.mul_0_l, Z.add_0_l.
    by rewrite Hvb.
Qed.

End IsoRoundTrip.

(** ** History and detail *)

Section History.

Lemma StronglySorted_take {A} (R : relation A) n l :
  StronglySorted R l -> StronglySorted R (take n l).
Proof.
  intros Hl. revert n. induction Hl as [|x l Hl IH Hx]; intros [|n]; cbn;
    try constructor; [apply IH|by apply Forall_take].
Qed.

(** A loop over documents that all convert returns the conversions, in
    order. *)
Lemma for_each_ok {A B} (f : A -> result B) l :
  (forall a, a ∈ l -> exists b, f a = Return b) ->
  exists bs, Server.for_each f l = Return bs
             /\ Forall2 (fun a b => f a = Return b) l bs.
Proof.
  induction l as [|a l IH]; intros Hok.
  - exists []. by split; [|constructor].
  - destruct (Hok a) as [b Hb]; [left|].
    destruct IH as (bs & Hbs & Hall); [intros a' Ha'; apply Hok; by right|].
    exists (b :: bs). cbn. rewrite Hb. cbn. rewrite Hbs. cbn.
    by split; [|constructor].
Qed.

(** What [find(...).sort(...).to_list(n)] hands over: at most [n]
    documents of the collection, all passing the filter, newest first. *)
Lemma find_sorted_spec filter n coll :
  let docs := Mongo.find_sorted filter n coll in
  (length docs <= n)%nat
  /\ (forall doc, doc ∈ docs -> doc ∈ coll /\ filter doc = true)
  /\ StronglySorted Mongo.newer_first docs.
Proof.
  unfold Mongo.find_sorted. split_and!.
  - rewrite length_take. lia.
  - intros doc Hdoc%elem_of_take. destruct Hdoc as (i & Hi & _).
    apply list_elem_of_lookup_2 in Hi.
    rewrite merge_sort_Permutation in Hi.
    by apply list_elem_of_filter in Hi as [? ?].
  - apply StronglySorted_take, StronglySorted_merge_sort; apply _.
Qed.

(** C8: on a store whose analyses carry the time stamps [create_analysis]
    wrote, [get_analysis_history] returns, leaves the store as it was, and
    its list has at most 100 responses, each the response of a stored
    analysis of the requesting user, ordered newest first: the creation
    times never increase along the list. *)
Theorem get_analysis_history_newest_first (db : Db) (U : User.t str) :
  created_at_written db ->
  exists rs,
    Server.get_analysis_history U db = (Return rs, db)
    /\ (length rs <= 100)%nat
    /\ (forall r, r ∈ rs ->
          exists doc a,
            doc ∈ Mongo.analyses db
            /\ CropAnalysis.user_id doc = User.id U
            /\ Server.parse_created_at doc = Return a
            /\ r = Server.response_of a)
    /\ StronglySorted newest_first rs.
Proof.
  intros Hwf.
  set (owned := fun a : CropAnalysis.t str =>
                  bool_decide (CropAnalysis.user_id a = User.id U)).
  destruct (find_sorted_spec owned 100 (Mongo.analyses db))
    as (Hlen & Hsub & Hsorted).
  set (docs := Mongo.find_sorted owned 100 (Mongo.analyses db)) in *.
  assert (Hparse : forall doc, doc ∈ docs ->
            exists d, Datetime.valid d
                      /\ CropAnalysis.created_at doc = Datetime.isoformat d
                      /\ Server.parse_created_at doc
                         = Return (CropAnalysis.with_created_at doc d)).
  { intros doc Hdoc. destruct (Hwf doc) as (d & Hd & Hc); [by apply Hsub|].
    exists d. split_and!; [done..|].
    unfold Server.parse_created_at.
    by rewrite Hc, fromisoformat_isoformat. }
  destruct (for_each_ok Server.parse_created_at docs) as (bs & Hbs & Hall).
  { intros doc Hdoc. destruct (Hparse doc Hdoc) as (d & _ & _ & ->).
    by eexists. }
  exists (Server.response_of <$> bs). split_and!.
  - unfold Server.get_analysis_history, bindM, Server.analyses_find_sorted,
      lift, ret. fold owned. fold docs. by rewrite Hbs.
  - rewrite length_fmap, <- (Forall2_length _ _ _ Hall). exact Hlen.
  - intros r (a & -> & Ha)%list_elem_of_fmap.
    destruct (proj1 (list_elem_of_lookup _ _) Ha) as [i Hi].
    destruct (Forall2_lookup_r _ _ _ _ _ Hall Hi) as (doc & Hdoc & Hpa).
    apply list_elem_of_lookup_2 in Hdoc.
    destruct (Hsub doc Hdoc) as [Hin Hown].
    apply bool_decide_eq_true in Hown. by exists doc, a.
  - clear Hbs Hlen. induction Hall as [|doc a docs' bs' Hpa Hall IH]; cbn;
      [constructor|].
    apply StronglySorted_inv in Hsorted as [Hsorted Hfirst].
    constructor.
    + apply IH; [|done| ].
      * intros doc' Hdoc'. apply Hsub. by right.
      * intros doc' Hdoc'. apply Hparse. by right.
    + apply Forall_fmap, Forall_forall. intros a' Ha'.
      destruct (proj1 (list_elem_of_lookup _ _) Ha') as [i Hi].
      destruct (Forall2_lookup_r _ _ _ _ _ Hall Hi) as (doc' & Hdoc' & Hpa').
      apply list_elem_of_lookup_2 in Hdoc'.
      pose proof (proj1 (Forall_forall _ _) Hfirst doc' Hdoc') as Hord.
      destruct (Hparse doc) as (d & Hd & Hc & Hp); [left|].
      destruct (Hparse doc') as (d' & Hd' & Hc' & Hp'); [by right|].
      rewrite Hp in Hpa. injection Hpa as <-.
      rewrite Hp' in Hpa'. injection Hpa' as <-.
      unfold newest_first, Mongo.newer_first in *. cbn.
      rewrite Hc, Hc' in Hord. by apply isoformat_le.
Qed.

(** C4: [get_analysis_detail] returns a record only when the store holds
    an analysis with the id that the requesting user owns, and then it is
    that analysis; when the id belongs to analyses of other users only, it
    raises 404 Analysis not found, and it raises the very same exception
    when no analysis has the id; the store is what it was. *)
Theorem get_analysis_detail_scoped (db : Db) (U : User.t str) (X : str) :
  (forall r db',
     Server.get_analysis_detail X U db = (Return r, db') ->
     exists doc,
       doc ∈ Mongo.analyses db
       /\ CropAnalysis.id doc = X
       /\ CropAnalysis.user_id doc = User.id U
       /\ Server.parse_created_at doc = Return r)
  /\ ((exists doc, doc ∈ Mongo.analyses db /\ CropAnalysis.id doc = X) ->
      (forall doc, doc ∈ Mongo.analyses db -> CropAnalysis.id doc = X ->
                   CropAnalysis.user_id doc <> User.id U) ->
      Server.get_analysis_detail X U db
      = (Raise (HTTPException 404 (lit "Analysis not found")), db))
  /\ ((forall doc, doc ∈ Mongo.analyses db -> CropAnalysis.id doc <> X) ->
      Server.get_analysis_detail X U db
      = (Raise (HTTPException 404 (lit "Analysis not found")), db)).
Proof.
  assert (Hmiss :
    (forall doc, doc ∈ Mongo.analyses db ->
       ~ (CropAnalysis.id doc = X
          /\ CropAnalysis.user_id doc = User.id U)) ->
    Server.get_analysis_detail X U db
    = (Raise (HTTPException 404 (lit "Analysis not found")), db)).
  { intros Hnone.
    unfold Server.get_analysis_detail, bindM, Server.analyses_find_one, raise.
    replace (Mongo.find_one _ (Mongo.analyses db))
      with (@None (CropAnalysis.t str)); [done|].
    symmetry. apply find_one_None. intros doc Hdoc.
    apply andb_false_iff.
    destruct (decide (CropAnalysis.id doc = X)) as [Hid|Hid];
      [right|left]; apply bool_decide_eq_false; [|done].
    intros Hu. by apply (Hnone doc Hdoc). }
  split_and!.
  - intros r db'.
    unfold Server.get_analysis_detail, bindM, Server.analyses_find_one,
      raise, lift.
    destruct (Mongo.find_one _ (Mongo.analyses db)) as [doc|] eqn:Hfind;
      [|done].
    apply find_one_Some in Hfind as [Hin Hf].
    apply andb_true_iff in Hf as [Hid Hu].
    apply bool_decide_eq_true in Hid, Hu.
    intros [= Hr _]. by exists doc.
  - intros _ Hforeign. apply Hmiss. intros doc Hdoc [Hid Hu].
    by apply (Hforeign doc Hdoc Hid).
  - intros Hunknown. apply Hmiss. intros doc Hdoc [Hid _].
    by apply (Hunknown doc Hdoc).
Qed.

End History.

(** ** The store invariants *)

(** [create_analysis] keeps the time stamps of the store well written. *)
Lemma create_analysis_created_at_written `{Platform}
    (crop_name growth_stage symptoms : str) (soil_moisture : option Z)
    (temperature : option pyfloat) (humidity : option Z)
    (image : option (result str)) (current_user : User.t str)
    (reply : result str) (new_id : str) (now : datetime) (db : Db) :
  Datetime.valid now -> created_at_written db ->
  created_at_written
    (Server.create_analysis crop_name growth_stage symptoms soil_moisture
       temperature humidity image current_user reply new_id now db).2.
Proof.
  intros Hnow Hwf.
  destruct (Server.create_analysis _ _ _ _ _ _ _ _ _ _ _ db) as [r db'] eqn:Hrun.
  apply create_analysis_inv in Hrun. destruct r as [resp|e]; [|by subst].
  destruct Hrun as (ai & img & dg & cs & ia & st & rt & rl & _ & _ & _ & _
                    & _ & _ & _ & _ & -> & _).
  intros doc [Hdoc|Hdoc]%elem_of_app; [by apply Hwf|].
  apply list_elem_of_singleton in Hdoc as ->. by exists now.
Qed.

(** [register] leaves the analyses alone, and keeps the ids of the users
    unique and non-empty when the fresh id is. *)
Lemma register_store `{Platform} (data : UserRegister.t) (new_id salt : str)
    (created : datetime) (now : Z) (db : Db) :
  let db' := (Server.register data new_id salt created now db).2 in
  Mongo.analyses db' = Mongo.analyses db
  /\ (new_id ∉ User.id <$> Mongo.users db ->
      NoDup (User.id <$> Mongo.users db) ->
      NoDup (User.id <$> Mongo.users db'))
  /\ (new_id <> [] ->
      Forall (fun u => User.id u <> []) (Mongo.users db) ->
      Forall (fun u => User.id u <> []) (Mongo.users db')).
Proof.
  unfold Server.register, bindM, Server.users_find_one,
    Server.users_insert_one, raise, ret.
  destruct (Mongo.find_one _ (Mongo.users db)); cbn; [done|].
  split_and!; [done| |].
  - intros Hfresh Hnd. rewrite fmap_app. apply NoDup_app.
    split_and!; [done| |apply NoDup_singleton].
    intros i Hi Hin. apply list_elem_of_singleton in Hin. by subst.
  - intros Hid Hall. apply Forall_app. split; [done|]. by constructor.
Qed.

(** ** Concrete runs of the other handlers *)

Lemma create_analysis_all_or_nothing_witness :
  @Server.create_analysis sample_platform (lit "Tomato") (lit "Flowering")
    (lit "spots") (Some 45) None (Some 70) None sample_user
    (Raise (ExternalError (lit "model unavailable"))) (lit "a-1") sample_now
    sample_db
  = (Raise (ExternalError (lit "model unavailable")), sample_db).
Proof.
  refine (proj1 (create_analysis_all_or_nothing (H := sample_platform)
            (lit "Tomato") (lit "Flowering") (lit "spots") (Some 45) None
            (Some 70) None sample_user (lit "a-1") sample_now sample_db)
            (ExternalError (lit "model unavailable")) _).
  intros e. discriminate.
Defined.

Lemma register_duplicate_email_witness :
  @Server.register sample_platform
    (UserRegister.mk (lit "a@x.com") (lit "A") (lit "p1")) (lit "u-9")
    (lit "salt") sample_now 0 sample_db
  = (Raise (HTTPException 400 (lit "Email already registered")), sample_db).
Proof.
  refine (proj1 (register_duplicate_email (H := sample_platform)
            (UserRegister.mk (lit "a@x.com") (lit "A") (lit "p1"))
            (lit "u-9") (lit "salt") sample_now 0 sample_db) _).
  exists sample_user. split; [left|reflexivity].
Defined.

Lemma login_failures_uniform_witness :
  (@Server.login sample_platform
     (UserLogin.mk (lit "nobody@x.com") (lit "p1")) 0 sample_db).1
  = (@Server.login sample_platform
       (UserLogin.mk (lit "a@x.com") (lit "wrong")) 0 sample_db).1.
Proof.
  refine (proj1 (proj2 (proj2 (login_failures_uniform (H := sample_platform)
            sample_db sample_db
            (UserLogin.mk (lit "nobody@x.com") (lit "p1"))
            (UserLogin.mk (lit "a@x.com") (lit "wrong")) 0 0 sample_user
            _ _ _)))).
  - intros u Hu. apply list_elem_of_singleton in Hu as ->. by vm_compute.
  - by vm_compute.
  - by vm_compute.
Defined.

Lemma token_resolves_to_its_user_witness :
  @Server.get_current_user sample_platform
    (@Server.create_token sample_platform (lit "u-1") (lit "a@x.com") 0)
    1000000 sample_users
  = (Return sample_user, sample_users).
Proof.
  refine (proj1 (token_resolves_to_its_user (H := sample_platform)
            sample_users sample_user sample_user2 0 1000000 _ _ _ _ _) _).
  - left.
  - right. left.
  - by vm_compute.
  - cbn. apply NoDup_cons. split; [|apply NoDup_singleton].
    intros Hin. apply list_elem_of_singleton in Hin. by vm_compute in Hin.
  - by vm_compute.
  - by vm_compute.
Defined.

Lemma get_analysis_detail_scoped_witness :
  @Server.get_analysis_detail (lit "a-2") sample_user sample_history
  = (Raise (HTTPException 404 (lit "Analysis not found")), sample_history)
  /\ @Server.get_analysis_detail (lit "a-0") sample_user sample_history
     = (Raise (HTTPException 404 (lit "Analysis not found")), sample_history).
Proof.
  split.
  - refine (proj1 (proj2 (get_analysis_detail_scoped sample_history
              sample_user (lit "a-2"))) _ _).
    + eexists. split; [right; left|reflexivity].
    + intros doc Hdoc Hid. unfold sample_history in Hdoc. cbn in Hdoc.
      repeat (apply elem_of_cons in Hdoc as [->|Hdoc]);
        [by vm_compute in Hid|by vm_compute|by vm_compute in Hid|].
      by apply elem_of_nil in Hdoc.
  - refine (proj2 (proj2 (get_analysis_detail_scoped sample_history
              sample_user (lit "a-0"))) _).
    intros doc Hdoc. unfold sample_history in Hdoc. cbn in Hdoc.
    repeat (apply elem_of_cons in Hdoc as [->|Hdoc]); try by vm_compute.
    by apply elem_of_nil in Hdoc.
Defined.

Lemma sample_history_written : created_at_written sample_history.
Proof.
  intros doc Hdoc. unfold sample_history in Hdoc. cbn in Hdoc.
  repeat (apply elem_of_cons in Hdoc as [->|Hdoc]);
    [eexists; split; [|reflexivity]; unfold Datetime.valid; cbn; lia..|].
  by apply elem_of_nil in Hdoc.
Qed.

Lemma get_analysis_history_newest_first_witness :
  exists rs,
    Server.get_analysis_history sample_user sample_history
    = (Return rs, sample_history)
    /\ CropAnalysisResponse.id <$> rs = [lit "a-1"; lit "a-3"]
    /\ StronglySorted newest_first rs.
Proof.
  destruct (get_analysis_history_newest_first sample_history sample_user
              sample_history_written) as (rs & Hrun & _ & _ & Hsorted).
  exists rs. split_and!; [exact Hrun| |exact Hsorted].
  vm_compute in Hrun. injection Hrun as <-. reflexivity.
Defined.

(** * Further properties of the handlers *)

(** ** More on lookups *)

Lemma find_one_app {A} (f : A -> bool) (l : list A) (x : A) :
  Mongo.find_one f (l ++ [x])
  = match Mongo.find_one f l with
    | Some y => Some y
    | None => if f x then Some x else None
    end.
Proof.
  induction l as [|a l IH]; cbn [app].
  - rewrite find_one_cons. by destruct (f x).
  - rewrite !find_one_cons. by destruct (f a).
Qed.

Lemma find_one_fresh {A} (f : A -> bool) (l : list A) (x : A) :
  (forall y, y ∈ l -> f y = false) -> f x = true ->
  Mongo.find_one f (l ++ [x]) = Some x.
Proof.
  intros Hl Hx. rewrite find_one_app, Hx.
  by rewrite (proj2 (find_one_None f l) Hl).
Qed.

(** ** Authentication *)

Section Authentication.
Context `{Platform}.

(** The run of [get_current_user], branch by branch. *)
Lemma get_current_user_run (token : Jwt.token) (now : Z) (db : Db) :
  Server.get_current_user token now db =
  (match token with
   | Jwt.Malformed _ => Raise (HTTPException 401 (lit "Invalid token"))
   | Jwt.Signed payload signature =>
       if bool_decide (signature = hmac_sha256 JWT_SECRET payload) then
         if match Payload.exp payload with
            | Some exp => exp * 1000000 <=? now
            | None => false
            end
         then Raise (HTTPException 401 (lit "Token expired"))
         else
           match Payload.user_id payload with
           | None | Some [] => Raise (HTTPException 401 (lit "Invalid token"))
           | Some user_id =>
               match Mongo.find_one
                       (fun u => bool_decide (User.id u = user_id))
                       (Mongo.users db) with
               | Some user => Return user
               | None => Raise (HTTPException 401 (lit "User not found"))
               end
           end
       else Raise (HTTPException 401 (lit "Invalid token"))
   end, db).
Proof.
  unfold Server.get_current_user, try_exceptM, bindM, lift, Jwt.decode,
    Server.users_find_one, raise, ret.
  destruct token as [raw|payload signature]; [done|].
  destruct (bool_decide _); [|done].
  destruct (Payload.exp payload) as [exp|].
  - destruct (exp * 1000000 <=? now); [done|].
    destruct (Payload.user_id payload) as [[|c uid]|]; try done.
    by destruct (Mongo.find_one _ _).
  - destruct (Payload.user_id payload) as [[|c uid]|]; try done.
    by destruct (Mongo.find_one _ _).
Qed.

(** X1: [get_current_user] never changes the store; it returns only a
    stored user whose id a correctly signed token names; and whenever it
    raises, it raises 401 with one of three details. *)
Theorem get_current_user_outcomes (token : Jwt.token) (now : Z) (db : Db) :
  exists r,
    Server.get_current_user token now db = (r, db)
    /\ match r with
       | Return user =>
           user ∈ Mongo.users db
           /\ exists payload,
                token = Jwt.Signed payload (hmac_sha256 JWT_SECRET payload)
                /\ Payload.user_id payload = Some (User.id user)
                /\ User.id user <> []
       | Raise e =>
           e = HTTPException 401 (lit "Token expired")
           \/ e = HTTPException 401 (lit "Invalid token")
           \/ e = HTTPException 401 (lit "User not found")
       end.
Proof.
  rewrite get_current_user_run. eexists. split; [reflexivity|].
  destruct token as [raw|payload signature]; [tauto|].
  case_bool_decide as Hsig; [|tauto]. subst signature.
  destruct (match Payload.exp payload with Some _ => _ | None => _ end);
    [tauto|].
  destruct (Payload.user_id payload) as [[|c uid]|] eqn:Huid; try tauto.
  destruct (Mongo.find_one _ _) as [user|] eqn:Hfind; [|tauto].
  apply find_one_Some in Hfind as [Hin Hid].
  apply bool_decide_eq_true in Hid. split; [done|].
  exists payload. rewrite Hid. by split_and!.
Qed.

(** X2: a token that is not a payload with its own HMAC under the secret
    (malformed text, or a wrong signature) is refused with 401 Invalid
    token, whatever the clock, the payload and the store: the signature is
    checked before the expiry. *)
Theorem get_current_user_bad_signature (token : Jwt.token) (now : Z)
    (db : Db) :
  (forall payload,
     token <> Jwt.Signed payload (hmac_sha256 JWT_SECRET payload)) ->
  Server.get_current_user token now db
  = (Raise (HTTPException 401 (lit "Invalid token")), db).
Proof.
  intros Hbad. rewrite get_current_user_run.
  destruct token as [raw|payload signature]; [done|].
  case_bool_decide as Hsig; [|done]. subst. by destruct (Hbad payload).
Qed.

(** X3: a correctly signed token without [exp] never expires: it resolves
    to the stored user it names at every clock reading. *)
Theorem get_current_user_without_exp (db : Db) (A : User.t str)
    (email : option str) (now : Z) :
  let payload := Payload.mk (Some (User.id A)) email None in
  A ∈ Mongo.users db ->
  NoDup (User.id <$> Mongo.users db) ->
  User.id A <> [] ->
  Server.get_current_user
    (Jwt.Signed payload (hmac_sha256 JWT_SECRET payload)) now db
  = (Return A, db).
Proof.
  intros payload HA Hnd Hid. rewrite get_current_user_run.
  rewrite bool_decide_eq_true_2 by done. cbn.
  destruct (User.id A) as [|c uid] eqn:HidA; [done|].
  rewrite <- HidA. by rewrite find_one_unique.
Qed.

(** X4: a correctly signed token that has not expired but whose payload
    has no [user_id], or an empty one, is refused with 401 Invalid token,
    even on a store that holds a user with the empty id. *)
Theorem get_current_user_without_user_id (payload : Payload.t) (now : Z)
    (db : Db) :
  Payload.user_id payload = None \/ Payload.user_id payload = Some [] ->
  (forall exp, Payload.exp payload = Some exp -> now < exp * 1000000) ->
  Server.get_current_user
    (Jwt.Signed payload (hmac_sha256 JWT_SECRET payload)) now db
  = (Raise (HTTPException 401 (lit "Invalid token")), db).
Proof.
  intros Huid Hexp. rewrite get_current_user_run.
  rewrite bool_decide_eq_true_2 by done.
  destruct (Payload.exp payload) as [exp|].
  - specialize (Hexp exp eq_refl).
    destruct (Z.leb_spec (exp * 1000000) now); [lia|].
    by destruct Huid as [-> | ->].
  - by destruct Huid as [-> | ->].
Qed.

(** X5: the life of a token of [create_token]: made at clock reading
    [now0] for a stored user, it is accepted at every reading up to seven
    days minus one second later, and refused with 401 Token expired at
    every reading seven days later or more. *)
Theorem create_token_lifetime (db : Db) (A : User.t str) (now0 now1 : Z) :
  let token := Server.create_token (User.id A) (User.email A) now0 in
  let week := 7 * 24 * 3600 * 1000000 in
  A ∈ Mongo.users db ->
  NoDup (User.id <$> Mongo.users db) ->
  User.id A <> [] ->
  (now1 <= now0 + week - 1000000 ->
     Server.get_current_user token now1 db = (Return A, db))
  /\ (now0 + week <= now1 ->
      Server.get_current_user token now1 db
      = (Raise (HTTPException 401 (lit "Token expired")), db)).
Proof.
  intros token week HA Hnd Hid.
  unfold token, Server.create_token, Jwt.encode.
  rewrite get_current_user_run. rewrite bool_decide_eq_true_2 by done.
  cbn [Payload.exp Payload.user_id]. unfold Server.JWT_EXPIRATION_HOURS.
  change (24 * 7 * 3600 * 1000000) with week.
  pose proof (Z.div_mod (now0 + week) 1000000 ltac:(lia)) as Hdm.
  pose proof (Z.mod_pos_bound (now0 + week) 1000000 ltac:(lia)) as Hmod.
  split; intros Hnow.
  - destruct (Z.leb_spec ((now0 + week) `div` 1000000 * 1000000) now1);
      [lia|].
    destruct (User.id A) as [|c uid] eqn:HidA; [done|].
    rewrite <- HidA. by rewrite find_one_unique.
  - by destruct (Z.leb_spec ((now0 + week) `div` 1000000 * 1000000) now1);
      [|lia].
Qed.

(** A token of [create_token], presented within seven days minus one
    second, leads to the lookup of its user id. *)
Lemma create_token_accepted (user_id email : str) (now0 now1 : Z) (db : Db) :
  user_id <> [] ->
  now1 <= now0 + 7 * 24 * 3600 * 1000000 - 1000000 ->
  Server.get_current_user (Server.create_token user_id email now0) now1 db
  = (match Mongo.find_one (fun u => bool_decide (User.id u = user_id))
             (Mongo.users db) with
     | Some user => Return user
     | None => Raise (HTTPException 401 (lit "User not found"))
     end, db).
Proof.
  intros Hid Hnow. unfold Server.create_token, Jwt.encode.
  rewrite get_current_user_run. rewrite bool_decide_eq_true_2 by done.
  cbn [Payload.exp Payload.user_id]. unfold Server.JWT_EXPIRATION_HOURS.
  pose proof (Z.div_mod (now0 + 24 * 7 * 3600 * 1000000) 1000000
                ltac:(lia)) as Hdm.
  pose proof (Z.mod_pos_bound (now0 + 24 * 7 * 3600 * 1000000) 1000000
                ltac:(lia)) as Hmod.
  destruct (Z.leb_spec
              ((now0 + 24 * 7 * 3600 * 1000000) `div` 1000000 * 1000000)
              now1); [lia|].
  by destruct user_id.
Qed.

(** The run of [register], branch by branch. *)
Lemma register_run (data : UserRegister.t) (new_id salt : str)
    (created : datetime) (now : Z) (db : Db) :
  Server.register data new_id salt created now db =
  match Mongo.find_one
          (fun u => bool_decide (User.email u = UserRegister.email data))
          (Mongo.users db) with
  | Some _ =>
      (Raise (HTTPException 400 (lit "Email already registered")), db)
  | None =>
      (Return (TokenResponse.mk
                 (Server.create_token new_id (UserRegister.email data) now)
                 (UserInfo.mk new_id (UserRegister.email data)
                    (UserRegister.name data))),
       Mongo.mk
         (Mongo.users db ++
          [User.mk new_id (UserRegister.email data) (UserRegister.name data)
             (bcrypt_hashpw (UserRegister.password data) salt)
             (Datetime.isoformat created)])
         (Mongo.analyses db))
  end.
Proof.
  unfold Server.register, bindM, Server.users_find_one,
    Server.users_insert_one, raise, ret.
  by destruct (Mongo.find_one _ _).
Qed.

(** The run of [login], branch by branch. *)
Lemma login_run (data : UserLogin.t) (now : Z) (db : Db) :
  Server.login data now db =
  (match Mongo.find_one
           (fun u => bool_decide (User.email u = UserLogin.email data))
           (Mongo.users db) with
   | Some user =>
       if bcrypt_checkpw (UserLogin.password data) (User.password_hash user)
       then Return (TokenResponse.mk
                      (Server.create_token (User.id user) (User.email user)
                         now)
                      (UserInfo.mk (User.id user) (User.email user)
                         (User.name user)))
       else Raise (HTTPException 401 (lit "Invalid email or password"))
   | None => Raise (HTTPException 401 (lit "Invalid email or password"))
   end, db).
Proof.
  unfold Server.login, bindM, Server.users_find_one, raise, ret,
    Server.verify_password.
  destruct (Mongo.find_one _ _) as [user|]; [|done].
  by destruct (bcrypt_checkpw _ _).
Qed.

Lemma email_fresh (email : str) (users : list (User.t str)) :
  (forall u, u ∈ users -> User.email u <> email) ->
  Mongo.find_one (fun u => bool_decide (User.email u = email)) users = None.
Proof.
  intros Hfresh. apply find_one_None. intros u Hu.
  apply bool_decide_eq_false. by apply Hfresh.
Qed.

(** X6: registration and login round trip: after [register] has stored a
    new email, on a bcrypt whose check accepts the hash it made of the
    password, [login] with that email and password returns a token for the
    new id together with the registered id, email and name, and leaves the
    store as [register] left it. *)
Theorem register_then_login (data : UserRegister.t) (new_id salt : str)
    (created : datetime) (now now' : Z) (db : Db) :
  (forall u, u ∈ Mongo.users db ->
             User.email u <> UserRegister.email data) ->
  bcrypt_checkpw (UserRegister.password data)
    (bcrypt_hashpw (UserRegister.password data) salt) = true ->
  let db' := (Server.register data new_id salt created now db).2 in
  Server.login
    (UserLogin.mk (UserRegister.email data) (UserRegister.password data))
    now' db'
  = (Return (TokenResponse.mk
               (Server.create_token new_id (UserRegister.email data) now')
               (UserInfo.mk new_id (UserRegister.email data)
                  (UserRegister.name data))),
     db').
Proof.
  intros Hfresh Hcheck db'. unfold db'.
  rewrite register_run, (email_fresh _ _ Hfresh). cbn [snd].
  rewrite login_run. cbn [Mongo.users UserLogin.email UserLogin.password].
  rewrite find_one_fresh; cbn.
  - by rewrite Hcheck.
  - intros u Hu. apply bool_decide_eq_false. by apply Hfresh.
  - by apply bool_decide_eq_true.
Qed.

(** X7: the token [register] returns authenticates the new user: with a
    fresh email and a fresh, non-empty id, [get_current_user] on that token,
    within seven days minus one second, returns the stored user, and
    [get_me] of it is the [user] part of the registration response. *)
Theorem register_then_authenticate (data : UserRegister.t)
    (new_id salt : str) (created : datetime) (now now1 : Z) (db : Db) :
  (forall u, u ∈ Mongo.users db ->
             User.email u <> UserRegister.email data) ->
  (forall u, u ∈ Mongo.users db -> User.id u <> new_id) ->
  new_id <> [] ->
  now1 <= now + 7 * 24 * 3600 * 1000000 - 1000000 ->
  exists resp db' user,
    Server.register data new_id salt created now db = (Return resp, db')
    /\ Server.get_current_user (TokenResponse.token resp) now1 db'
       = (Return user, db')
    /\ user ∈ Mongo.users db'
    /\ Server.get_me user = TokenResponse.user resp.
Proof.
  intros Hmail Hid Hne Hnow.
  rewrite register_run, (email_fresh _ _ Hmail).
  eexists _, _, _. split; [reflexivity|]. cbn [TokenResponse.token].
  rewrite create_token_accepted by done. cbn [Mongo.users].
  rewrite find_one_fresh.
  - split_and!; [reflexivity|apply elem_of_app; right; left|done].
  - intros u Hu. apply bool_decide_eq_false. by apply Hid.
  - by apply bool_decide_eq_true.
Qed.

(** X8: the token [login] returns authenticates the user who logged in:
    on a store with unique, non-empty ids, [get_current_user] on it, within
    seven days minus one second, returns the stored user with the email of
    the login, and [get_me] of it is the [user] part of the response. *)
Theorem login_then_authenticate (data : UserLogin.t) (now now1 : Z)
    (db db' : Db) (resp : TokenResponse.t) :
  Server.login data now db = (Return resp, db') ->
  NoDup (User.id <$> Mongo.users db) ->
  Forall (fun u => User.id u <> []) (Mongo.users db) ->
  now1 <= now + 7 * 24 * 3600 * 1000000 - 1000000 ->
  exists user,
    Server.get_current_user (TokenResponse.token resp) now1 db'
    = (Return user, db')
    /\ user ∈ Mongo.users db
    /\ User.email user = UserLogin.email data
    /\ Server.get_me user = TokenResponse.user resp.
Proof.
  rewrite login_run. intros Hlogin Hnd Hids Hnow.
  destruct (Mongo.find_one _ _) as [user|] eqn:Hfind; [|by inversion Hlogin].
  destruct (bcrypt_checkpw _ _); inversion Hlogin; subst; clear Hlogin.
  apply find_one_Some in Hfind as [Hin Hmail].
  apply bool_decide_eq_true in Hmail.
  exists user. cbn [TokenResponse.token].
  rewrite create_token_accepted;
    [|exact (proj1 (Forall_forall _ _) Hids user Hin)|done].
  rewrite find_one_unique by done. by split_and!.
Qed.

(** X9: registering an email a second time fails: once [register] has run
    for an email (whether it stored a user or found one), every later
    [register] with that email, whatever its name, password, id, salt and
    clock, raises 400 Email already registered and leaves the store as it
    was. *)
Theorem register_twice (data1 data2 : UserRegister.t)
    (id1 id2 salt1 salt2 : str) (created1 created2 : datetime)
    (now1 now2 : Z) (db : Db) :
  UserRegister.email data2 = UserRegister.email data1 ->
  let db1 := (Server.register data1 id1 salt1 created1 now1 db).2 in
  Server.register data2 id2 salt2 created2 now2 db1
  = (Raise (HTTPException 400 (lit "Email already registered")), db1).
Proof.
  intros Hmail db1. unfold db1. rewrite (register_run data1).
  destruct (Mongo.find_one _ (Mongo.users db)) as [u|] eqn:Hfind; cbn [snd].
  - rewrite register_run, Hmail. by rewrite Hfind.
  - rewrite register_run, Hmail. cbn [Mongo.users].
    rewrite find_one_app, Hfind. cbn.
    by rewrite bool_decide_eq_true_2.
Qed.

End Authentication.

(** ** Analyses: storing, listing, looking up *)

Section Analyses.
Context `{Platform}.

Lemma Forall2_in_l {A B} (P : A -> B -> Prop) l k x :
  Forall2 P l k -> x ∈ l -> exists y, y ∈ k /\ P x y.
Proof.
  induction 1 as [|a b l k Hab _ IH]; [by intros ?%elem_of_nil|].
  intros [->|Hx]%elem_of_cons.
  - exists b. split; [left|done].
  - destruct (IH Hx) as (y & Hy & Hxy). exists y. split; [by right|done].
Qed.

Lemma Forall2_in_r {A B} (P : A -> B -> Prop) l k y :
  Forall2 P l k -> y ∈ k -> exists x, x ∈ l /\ P x y.
Proof.
  induction 1 as [|a b l k Hab _ IH]; [by intros ?%elem_of_nil|].
  intros [->|Hy]%elem_of_cons.
  - exists a. split; [left|done].
  - destruct (IH Hy) as (x & Hx & Hxy). exists x. split; [by right|done].
Qed.

(** The run of [get_analysis_history]. *)
Lemma get_analysis_history_run (U : User.t str) (db : Db) :
  Server.get_analysis_history U db
  = (match Server.for_each Server.parse_created_at
             (Mongo.find_sorted (owned_by U) 100 (Mongo.analyses db)) with
     | Return bs => Return (Server.response_of <$> bs)
     | Raise e => Raise e
     end, db).
Proof.
  unfold Server.get_analysis_history, bindM, Server.analyses_find_sorted,
    lift, ret. fold (owned_by U).
  by destruct (Server.for_each _ _).
Qed.

(** The run of [get_analysis_detail]. *)
Lemma get_analysis_detail_run (X : str) (U : User.t str) (db : Db) :
  Server.get_analysis_detail X U db
  = (match Mongo.find_one
             (fun a => bool_decide (CropAnalysis.id a = X) && owned_by U a)
             (Mongo.analyses db) with
     | Some a => Server.parse_created_at a
     | None => Raise (HTTPException 404 (lit "Analysis not found"))
     end, db).
Proof.
  unfold Server.get_analysis_detail, bindM, Server.analyses_find_one, raise,
    lift. fold (owned_by U).
  by destruct (Mongo.find_one _ _).
Qed.

(** On a store with well written time stamps the history is the list of
    the selected documents, each with its time stamp read back. *)
Lemma get_analysis_history_docs (U : User.t str) (db : Db) :
  created_at_written db ->
  exists bs,
    Server.get_analysis_history U db
    = (Return (Server.response_of <$> bs), db)
    /\ Forall2 (fun doc a => Server.parse_created_at doc = Return a)
         (Mongo.find_sorted (owned_by U) 100 (Mongo.analyses db)) bs.
Proof.
  intros Hwf. rewrite get_analysis_history_run.
  destruct (for_each_ok Server.parse_created_at
              (Mongo.find_sorted (owned_by U) 100 (Mongo.analyses db)))
    as (bs & Hbs & Hall).
  - intros doc Hdoc.
    destruct (find_sorted_spec (owned_by U) 100 (Mongo.analyses db))
      as (_ & Hsub & _).
    destruct (Hwf doc) as (d & Hd & Hc); [by apply Hsub|].
    exists (CropAnalysis.with_created_at doc d).
    unfold Server.parse_created_at. by rewrite Hc, fromisoformat_isoformat.
  - exists bs. by rewrite Hbs.
Qed.

(** A document that the filter rejects does not show in the result. *)
Lemma find_sorted_app_other filter n coll doc :
  filter doc = false ->
  Mongo.find_sorted filter n (coll ++ [doc]) = Mongo.find_sorted filter n coll.
Proof.
  intros Hdoc. unfold Mongo.find_sorted.
  rewrite filter_app, filter_singleton_False, app_nil_r;
    [done|exact []|by rewrite Hdoc].
Qed.

(** Below the cap every selected document is in the result. *)
Lemma find_sorted_all filter n coll doc :
  (length (base.filter (fun a => filter a = true) coll) <= n)%nat ->
  doc ∈ coll -> filter doc = true ->
  doc ∈ Mongo.find_sorted filter n coll.
Proof.
  intros Hlen Hin Hdoc. unfold Mongo.find_sorted.
  rewrite take_ge by (by rewrite merge_sort_Permutation).
  rewrite merge_sort_Permutation. by apply list_elem_of_filter.
Qed.

(** X10: the handlers that only read leave the store as it was, whatever
    they return or raise: [login], [get_analysis_history] and
    [get_analysis_detail]; [register] never touches the analyses, and
    [create_analysis] never touches the users. *)
Theorem handlers_leave_store :
  (forall data now db, (Server.login data now db).2 = db)
  /\ (forall U db, (Server.get_analysis_history U db).2 = db)
  /\ (forall X U db, (Server.get_analysis_detail X U db).2 = db)
  /\ (forall data new_id salt created now db,
        Mongo.analyses (Server.register data new_id salt created now db).2
        = Mongo.analyses db)
  /\ (forall crop_name growth_stage symptoms soil_moisture temperature
             humidity image current_user reply new_id now db,
        Mongo.users
          (Server.create_analysis crop_name growth_stage symptoms
             soil_moisture temperature humidity image current_user reply
             new_id now db).2
        = Mongo.users db).
Proof.
  split_and!.
  - intros. by rewrite login_run.
  - intros. by rewrite get_analysis_history_run.
  - intros. by rewrite get_analysis_detail_run.
  - intros. rewrite register_run. by destruct (Mongo.find_one _ _).
  - intros.
    destruct (Server.create_analysis _ _ _ _ _ _ _ _ _ _ _ db)
      as [r db'] eqn:Hrun.
    apply create_analysis_inv in Hrun. destruct r as [resp|e]; [|by subst].
    by destruct Hrun as (? & ? & ? & ? & ? & ? & ? & ? & _ & _ & _ & _ & _
                         & _ & _ & _ & -> & _).
Qed.

(** X11: storing and looking up round trip: after [create_analysis] has
    returned a response, at a valid clock reading and with an id no earlier
    analysis of the user carries, [get_analysis_detail] for that id and user
    returns the stored record: its response is the one [create_analysis]
    returned, its [created_at] is the clock reading, and it carries the
    user's id and the form fields. *)
Theorem create_then_detail (crop_name growth_stage symptoms : str)
    (soil_moisture : option Z) (temperature : option pyfloat)
    (humidity : option Z) (image : option (result str)) (U : User.t str)
    (reply : result str) (new_id : str) (now : datetime) (db db' : Db)
    (resp : CropAnalysisResponse.t) :
  Server.create_analysis crop_name growth_stage symptoms soil_moisture
    temperature humidity image U reply new_id now db = (Return resp, db') ->
  Datetime.valid now ->
  (forall doc, doc ∈ Mongo.analyses db -> CropAnalysis.id doc = new_id ->
               CropAnalysis.user_id doc <> User.id U) ->
  exists a,
    Server.get_analysis_detail new_id U db' = (Return a, db')
    /\ Server.response_of a = resp
    /\ CropAnalysis.created_at a = now
    /\ CropAnalysis.id a = new_id
    /\ CropAnalysis.user_id a = User.id U
    /\ CropAnalysis.crop_name a = crop_name
    /\ CropAnalysis.growth_stage a = growth_stage
    /\ CropAnalysis.symptoms a = symptoms
    /\ CropAnalysis.soil_moisture a = soil_moisture
    /\ CropAnalysis.temperature a = temperature
    /\ CropAnalysis.humidity a = humidity.
Proof.
  intros Hrun Hnow Hfresh. apply create_analysis_inv in Hrun.
  destruct Hrun as (ai & img & dg & cs & ia & st & rt & rl & _ & _ & _ & _
                    & _ & _ & _ & _ & -> & ->).
  rewrite get_analysis_detail_run. cbn [Mongo.analyses].
  rewrite find_one_fresh.
  - unfold Server.parse_created_at. cbn [CropAnalysis.created_at].
    rewrite fromisoformat_isoformat by done.
    eexists. split; [reflexivity|]. by split_and!.
  - intros doc Hdoc. apply andb_false_iff.
    destruct (decide (CropAnalysis.id doc = new_id)) as [Hid|Hid].
    + right. apply bool_decide_eq_false. by apply Hfresh.
    + left. by apply bool_decide_eq_false.
  - apply andb_true_iff. split; by apply bool_decide_eq_true.
Qed.

(** X12: the analyses of one user are invisible to another: whatever
    [create_analysis] does for user B, the history of a user A with another
    id and every detail lookup of A give what they gave before. *)
Theorem create_analysis_isolation (crop_name growth_stage symptoms : str)
    (soil_moisture : option Z) (temperature : option pyfloat)
    (humidity : option Z) (image : option (result str)) (A B : User.t str)
    (reply : result str) (new_id : str) (now : datetime) (db : Db) :
  User.id A <> User.id B ->
  let db' := (Server.create_analysis crop_name growth_stage symptoms
                soil_moisture temperature humidity image B reply new_id now
                db).2 in
  (Server.get_analysis_history A db').1 = (Server.get_analysis_history A db).1
  /\ (forall X, (Server.get_analysis_detail X A db').1
                = (Server.get_analysis_detail X A db).1).
Proof.
  intros Hne db'. unfold db'.
  destruct (Server.create_analysis _ _ _ _ _ _ _ _ _ _ _ db)
    as [r db1] eqn:Hrun.
  apply create_analysis_inv in Hrun. destruct r as [resp|e]; [|by subst].
  destruct Hrun as (ai & img & dg & cs & ia & st & rt & rl & _ & _ & _ & _
                    & _ & _ & _ & _ & -> & _).
  cbn [snd]. split.
  - rewrite !get_analysis_history_run. cbn [fst Mongo.analyses].
    rewrite find_sorted_app_other; [done|].
    apply bool_decide_eq_false. cbn. congruence.
  - intros X. rewrite !get_analysis_detail_run. cbn [fst Mongo.analyses].
    rewrite find_one_app.
    destruct (Mongo.find_one _ (Mongo.analyses db)); [done|].
    replace (owned_by A _) with false; [by rewrite andb_false_r|].
    symmetry. apply bool_decide_eq_false. cbn. congruence.
Qed.

End Analyses.

(** ** The history of a user *)

Section HistoryMore.
Context `{Platform}.

Lemma filter_owned (U : User.t str) (l : list (CropAnalysis.t str)) :
  base.filter (fun a => owned_by U a = true) l
  = base.filter (fun a => CropAnalysis.user_id a = User.id U) l.
Proof.
  apply list_filter_iff. intros a. unfold owned_by.
  by rewrite bool_decide_eq_true.
Qed.

(** A well written time stamp is read back. *)
Lemma parse_created_at_written (doc : CropAnalysis.t str) (d : datetime) :
  Datetime.valid d ->
  CropAnalysis.created_at doc = Datetime.isoformat d ->
  Server.parse_created_at doc = Return (CropAnalysis.with_created_at doc d).
Proof.
  intros Hd Hc. unfold Server.parse_created_at.
  by rewrite Hc, fromisoformat_isoformat.
Qed.

(** X13: the history is complete up to its cap: on a store with well
    written time stamps, the list has as many responses as the user has
    analyses, or 100 when there are more; and when there are at most 100,
    every analysis of the user has its response in the list. *)
Theorem get_analysis_history_complete (db : Db) (U : User.t str) :
  created_at_written db ->
  let mine := base.filter (fun a => CropAnalysis.user_id a = User.id U)
                (Mongo.analyses db) in
  exists rs,
    Server.get_analysis_history U db = (Return rs, db)
    /\ length rs = (100 `min` length mine)%nat
    /\ ((length mine <= 100)%nat ->
        forall doc, doc ∈ mine ->
          exists a, Server.parse_created_at doc = Return a
                    /\ Server.response_of a ∈ rs).
Proof.
  intros Hwf mine.
  destruct (get_analysis_history_docs U db Hwf) as (bs & Hrun & Hall).
  exists (Server.response_of <$> bs). split_and!; [done| |].
  - rewrite length_fmap, <- (Forall2_length _ _ _ Hall).
    unfold Mongo.find_sorted.
    by rewrite length_take, merge_sort_Permutation, filter_owned.
  - intros Hlen doc Hdoc.
    destruct (Forall2_in_l _ _ _ doc Hall) as (a & Ha & Hpa).
    + unfold mine in Hdoc. rewrite <- filter_owned in Hdoc.
      apply list_elem_of_filter in Hdoc as [Hown Hin].
      apply find_sorted_all; [by rewrite filter_owned|done..].
    + exists a. split; [done|]. by apply list_elem_of_fmap_2.
Qed.

(** X14: the cap drops the oldest: on a store with well written time
    stamps, an analysis of the user whose response is not in the history
    is no newer than any response that is. *)
Theorem get_analysis_history_keeps_newest (db : Db) (U : User.t str) :
  created_at_written db ->
  exists rs,
    Server.get_analysis_history U db = (Return rs, db)
    /\ forall doc a,
         doc ∈ Mongo.analyses db ->
         CropAnalysis.user_id doc = User.id U ->
         Server.parse_created_at doc = Return a ->
         Server.response_of a ∈ rs
         \/ forall r, r ∈ rs -> newest_first r (Server.response_of a).
Proof.
  intros Hwf.
  destruct (get_analysis_history_docs U db Hwf) as (bs & Hrun & Hall).
  exists (Server.response_of <$> bs). split; [done|].
  intros doc a Hin Hown Hpa.
  set (sorted := merge_sort Mongo.newer_first
                   (base.filter (fun a => owned_by U a = true)
                      (Mongo.analyses db))).
  assert (Hsorted : StronglySorted Mongo.newer_first
                      (take 100 sorted ++ drop 100 sorted)).
  { rewrite take_drop. apply StronglySorted_merge_sort; apply _. }
  assert (Hdoc : doc ∈ take 100 sorted ++ drop 100 sorted).
  { rewrite take_drop. unfold sorted. rewrite merge_sort_Permutation.
    apply list_elem_of_filter. split; [|done].
    by apply bool_decide_eq_true. }
  apply elem_of_app in Hdoc as [Hkept|Hcut].
  - left. destruct (Forall2_in_l _ _ _ doc Hall Hkept) as (a' & Ha' & Hpa').
    rewrite Hpa in Hpa'. injection Hpa' as <-.
    by apply list_elem_of_fmap_2.
  - right. intros r (a' & -> & Ha')%list_elem_of_fmap.
    destruct (Forall2_in_r _ _ _ a' Hall Ha') as (doc' & Hdoc' & Hpa').
    pose proof (StronglySorted_app_1_elem_of _ _ _ doc' doc Hsorted Hdoc'
                  Hcut) as Hord.
    destruct (Hwf doc Hin) as (d & Hd & Hc).
    destruct (Hwf doc') as (d' & Hd' & Hc').
    { by apply (find_sorted_spec (owned_by U) 100 (Mongo.analyses db)). }
    rewrite (parse_created_at_written doc d Hd Hc) in Hpa.
    rewrite (parse_created_at_written doc' d' Hd' Hc') in Hpa'.
    injection Hpa as <-. injection Hpa' as <-.
    unfold newest_first, Mongo.newer_first in *. cbn.
    rewrite Hc, Hc' in Hord. by apply isoformat_le.
Qed.

(** X15: a new analysis shows in the history: after [create_analysis] has
    returned a response, at a valid clock reading, on a store with well
    written time stamps where the user had fewer than 100 analyses, the
    history of the user contains that response. *)
Theorem create_then_history (crop_name growth_stage symptoms : str)
    (soil_moisture : option Z) (temperature : option pyfloat)
    (humidity : option Z) (image : option (result str)) (U : User.t str)
    (reply : result str) (new_id : str) (now : datetime) (db db' : Db)
    (resp : CropAnalysisResponse.t) :
  Server.create_analysis crop_name growth_stage symptoms soil_moisture
    temperature humidity image U reply new_id now db = (Return resp, db') ->
  Datetime.valid now ->
  created_at_written db ->
  (length (base.filter (fun a => CropAnalysis.user_id a = User.id U)
             (Mongo.analyses db)) < 100)%nat ->
  exists rs,
    Server.get_analysis_history U db' = (Return rs, db') /\ resp ∈ rs.
Proof.
  intros Hrun Hnow Hwf Hlen. apply create_analysis_inv in Hrun.
  destruct Hrun as (ai & img & dg & cs & ia & st & rt & rl & _ & _ & _ & _
                    & _ & _ & _ & _ & -> & ->).
  set (doc := CropAnalysis.mk new_id (User.id U) crop_name growth_stage
                symptoms soil_moisture temperature humidity img dg cs ia st
                rt rl (Datetime.isoformat now)).
  set (db' := Mongo.mk (Mongo.users db) (Mongo.analyses db ++ [doc])).
  assert (Hwf' : created_at_written db').
  { intros doc' [Hdoc'|Hdoc']%elem_of_app; [by apply Hwf|].
    apply list_elem_of_singleton in Hdoc' as ->. by exists now. }
  destruct (get_analysis_history_docs U db' Hwf') as (bs & Hhist & Hall).
  exists (Server.response_of <$> bs). split; [done|].
  destruct (Forall2_in_l _ _ _ doc Hall) as (a & Ha & Hpa).
  - apply find_sorted_all.
    + rewrite filter_owned. cbn [Mongo.analyses db'].
      rewrite filter_app, length_app, filter_singleton_True;
        [cbn; lia|exact []|done].
    + apply elem_of_app. right. left.
    + by apply bool_decide_eq_true.
  - rewrite (parse_created_at_written doc now Hnow eq_refl) in Hpa.
    injection Hpa as <-. by apply (list_elem_of_fmap_2' _ _ _ _ Ha).
Qed.

End HistoryMore.

(** ** More on the reply of the model *)

Section ReplyMore.
Context `{Platform}.

Lemma validate_str_raises (v : value) e :
  Pydantic.validate_str v = Raise e -> e = ValidationError.
Proof.
  destruct v; cbn; try by intros [= <-].
  case_match; [done|by intros [= <-]].
Qed.

(** X16: [analyze_crop_with_ai] changes nothing of a parsed object but its
    score: the dict it returns has the keys of the object, the same value
    under every key other than [confidence_score], and under that key either
    the value of the object or an integer; an object whose score is already
    an integer is returned as it is. *)
Theorem analyze_crop_with_ai_keeps_object (response : str)
    (d ai : gmap str value) :
  Json.loads (Server.response_text response) = Some (VDict d) ->
  Server.analyze_crop_with_ai (Return response) = Return ai ->
  dom ai = dom d
  /\ (forall key, key <> lit "confidence_score" -> ai !! key = d !! key)
  /\ (ai !! lit "confidence_score" = d !! lit "confidence_score"
      \/ exists n, ai !! lit "confidence_score" = Some (VInt n))
  /\ (forall n, d !! lit "confidence_score" = Some (VInt n) -> ai = d).
Proof.
  intros Hd. rewrite (analyze_crop_with_ai_parsed _ d Hd).
  destruct (d !! lit "confidence_score") as [c|] eqn:Hc;
    [|intros [= <-]; by split_and!; auto].
  destruct (truthy c) eqn:Ht; [|intros [= <-]; split_and!; auto; congruence].
  destruct (PyInt.int c) as [n|e] eqn:Hint; cbn; [|done].
  intros [= <-]. split_and!.
  - by apply dom_insert_lookup_L.
  - intros key Hkey. by apply lookup_insert_ne.
  - right. exists n. apply lookup_insert_eq.
  - intros m [= ->]. cbn in Hint. injection Hint as <-. by apply insert_id.
Qed.


(** X18: a score that is present but null or empty is not replaced by the
    default: for a reply that parses to an object whose [confidence_score]
    is null, the empty string, the empty list or the empty object,
    [create_analysis], with the upload read, raises the validation error and
    stores nothing. *)
Theorem create_analysis_empty_score (response : str) (d : gmap str value)
    (c : value) (crop_name growth_stage symptoms : str)
    (soil_moisture : option Z) (temperature : option pyfloat)
    (humidity : option Z) (image : option (result str))
    (current_user : User.t str) (new_id : str) (now : datetime) (db : Db) :
  Json.loads (Server.response_text response) = Some (VDict d) ->
  d !! lit "confidence_score" = Some c ->
  c = VNone \/ c = VStr [] \/ c = VList [] \/ c = VDict ∅ ->
  image_read image ->
  Server.create_analysis crop_name growth_stage symptoms soil_moisture
    temperature humidity image current_user (Return response) new_id now db
  = (Raise ValidationError, db).
Proof.
  intros Hd Hc Hempty Himg.
  assert (Hai : Server.analyze_crop_with_ai (Return response) = Return d).
  { rewrite (analyze_crop_with_ai_parsed _ d Hd), Hc.
    by destruct Hempty as [->|[->|[->| ->]]]. }
  assert (Hint : Pydantic.validate_int
                   (Server.get_default d "confidence_score" (VInt 0))
                 = Raise ValidationError).
  { unfold Server.get_default. rewrite Hc.
    by destruct Hempty as [->|[->|[->| ->]]]. }
  unfold Server.create_analysis, bindM, lift. rewrite Hai.
  destruct image as [[b|e]|]; [|by destruct (Himg e)|];
    cbn -[Pydantic.validate_str Pydantic.validate_int Server.get_default];
    (destruct (Pydantic.validate_str (Server.get_default d "diagnosis" _))
       as [dg|e] eqn:Hdg;
     cbn -[Pydantic.validate_str Pydantic.validate_int Server.get_default];
     [by rewrite Hint|by rewrite (validate_str_raises _ _ Hdg)]).
Qed.

End ReplyMore.

(** ** The prompt *)

Section PromptText.
Variable float_repr : pyfloat -> str.

(** X20: the prompt frames the request: whatever the readings and the
    image, the text sent to the model begins with the crop name, the growth
    stage and the symptoms of the request, verbatim and in this order, and
    ends with the instruction to answer in JSON only. *)
Theorem user_text_frame (r : Prompt.request_data) (image_base64 : option str) :
  startswith (Prompt.user_text float_repr r image_base64)
    (lit "Analyze this crop:" ++ Prompt.LF
     ++ lit "Crop: " ++ Prompt.crop_name r ++ Prompt.LF
     ++ lit "Growth Stage: " ++ Prompt.growth_stage r ++ Prompt.LF
     ++ lit "Symptoms: " ++ Prompt.symptoms r ++ Prompt.LF) = true
  /\ endswith (Prompt.user_text float_repr r image_base64)
       (Prompt.LF ++ Prompt.LF
        ++ lit "Provide analysis in JSON format only.") = true.
Proof.
  unfold Prompt.user_text. cbv zeta.
  set (header := lit "Analyze this crop:" ++ _).
  split; [|apply endswith_app].
  destruct (Prompt.reading_int (Prompt.soil_moisture r)),
    (Prompt.reading_float (Prompt.temperature r)),
    (Prompt.reading_int (Prompt.humidity r)),
    image_base64 as [b|]; try destruct (truthy (VStr b));
    rewrite <- ?app_assoc; apply startswith_app.
Qed.

(** X21: a reading of zero is not reported: a request whose soil
    moisture or humidity is 0, whose temperature is 0.0 or -0.0, or whose
    image text is empty, gets the prompt of the request without that
    reading or image. *)
Theorem user_text_zero_reading (crop_name growth_stage symptoms : str)
    (soil_moisture : option Z) (temperature : option pyfloat)
    (humidity : option Z) (image_base64 : option str) (sign : bool) (e : Z) :
  Prompt.user_text float_repr
    (Prompt.mk crop_name growth_stage symptoms (Some 0) temperature humidity)
    image_base64
  = Prompt.user_text float_repr
      (Prompt.mk crop_name growth_stage symptoms None temperature humidity)
      image_base64
  /\ Prompt.user_text float_repr
       (Prompt.mk crop_name growth_stage symptoms soil_moisture
          (Some (FFinite sign 0 e)) humidity) image_base64
     = Prompt.user_text float_repr
         (Prompt.mk crop_name growth_stage symptoms soil_moisture None
            humidity) image_base64
  /\ Prompt.user_text float_repr
       (Prompt.mk crop_name growth_stage symptoms soil_moisture temperature
          (Some 0)) image_base64
     = Prompt.user_text float_repr
         (Prompt.mk crop_name growth_stage symptoms soil_moisture temperature
            None) image_base64
  /\ Prompt.user_text float_repr
       (Prompt.mk crop_name growth_stage symptoms soil_moisture temperature
          humidity) (Some [])
     = Prompt.user_text float_repr
         (Prompt.mk crop_name growth_stage symptoms soil_moisture temperature
            humidity) None.
Proof. by split_and!. Qed.

End PromptText.

(** ** The recommender *)

Section Recommender.

(** X22: the decision table of [identify_crop]: Rice exactly for Clay
    with rainfall above 1000, Wheat exactly for Loam with temperature below
    30, Maize exactly for Sandy, Cotton exactly for Black, and Sugarcane in
    every other case (an unknown soil, Clay at 1000 or less, Loam at 30 or
    more, a reading that is not a number). *)
Theorem identify_crop_table (soil : str) (rainfall temperature : pyfloat) :
  let crop := CropAi.identify_crop soil rainfall temperature in
  (crop = lit "Rice"
   <-> soil = lit "Clay" /\ CropAi.gt rainfall 1000 = true)
  /\ (crop = lit "Wheat"
      <-> soil = lit "Loam" /\ CropAi.lt temperature 30 = true)
  /\ (crop = lit "Maize" <-> soil = lit "Sandy")
  /\ (crop = lit "Cotton" <-> soil = lit "Black")
  /\ (crop = lit "Sugarcane"
      <-> ~ (soil = lit "Clay" /\ CropAi.gt rainfall 1000 = true)
          /\ ~ (soil = lit "Loam" /\ CropAi.lt temperature 30 = true)
          /\ soil <> lit "Sandy" /\ soil <> lit "Black").
Proof.
  unfold CropAi.identify_crop.
  assert (Hne : forall k1 k2 : string, k1 <> k2 -> lit k1 <> lit k2)
    by apply lit_key_ne.
  repeat case_bool_decide; subst;
    destruct (CropAi.gt rainfall 1000), (CropAi.lt temperature 30); cbn;
    repeat split; intros;
    repeat match goal with
           | H : _ /\ _ |- _ => destruct H
           | H : lit ?a = lit ?b |- _ =>
               exfalso; revert H; by apply Hne
           | H : ~ (_ /\ _) |- _ => exfalso; apply H; by split
           | |- ~ _ => intros ?
           end;
    try done; try (by apply Hne).
Qed.

(** X23: the weather matters for two soils only: for every soil but
    Clay the recommendation does not depend on the rainfall, and for every
    soil but Loam it does not depend on the temperature. *)
Theorem identify_crop_weather (soil : str) :
  (soil <> lit "Clay" ->
   forall rainfall1 rainfall2 temperature,
     CropAi.identify_crop soil rainfall1 temperature
     = CropAi.identify_crop soil rainfall2 temperature)
  /\ (soil <> lit "Loam" ->
      forall rainfall temperature1 temperature2,
        CropAi.identify_crop soil rainfall temperature1
        = CropAi.identify_crop soil rainfall temperature2).
Proof.
  unfold CropAi.identify_crop. split; intros Hsoil; intros;
    by rewrite (bool_decide_eq_false_2 _ Hsoil).
Qed.

End Recommender.

(** ** Concrete runs of the further properties *)

Lemma get_current_user_bad_signature_witness :
  @Server.get_current_user sample_platform (Jwt.Malformed (lit "garbage"))
    0 sample_users
  = (Raise (HTTPException 401 (lit "Invalid token")), sample_users).
Proof.
  apply (get_current_user_bad_signature (H := sample_platform)).
  intros payload. discriminate.
Defined.

Lemma sample_users_ids : NoDup (User.id <$> Mongo.users sample_users).
Proof.
  cbn. apply NoDup_cons. split; [|apply NoDup_singleton].
  intros Hin. apply list_elem_of_singleton in Hin. by vm_compute in Hin.
Qed.

Lemma get_current_user_without_exp_witness :
  @Server.get_current_user sample_platform
    (Jwt.Signed (Payload.mk (Some (User.id sample_user)) None None)
       (@hmac_sha256 sample_platform (@JWT_SECRET sample_platform)
          (Payload.mk (Some (User.id sample_user)) None None)))
    1000000000000000000 sample_users
  = (Return sample_user, sample_users).
Proof.
  refine (get_current_user_without_exp (H := sample_platform) sample_users
            sample_user None 1000000000000000000 _ _ _).
  - left.
  - exact sample_users_ids.
  - by vm_compute.
Defined.

Lemma get_current_user_without_user_id_witness :
  @Server.get_current_user sample_platform
    (Jwt.Signed (Payload.mk None None (Some 10))
       (@hmac_sha256 sample_platform (@JWT_SECRET sample_platform)
          (Payload.mk None None (Some 10))))
    0 sample_users
  = (Raise (HTTPException 401 (lit "Invalid token")), sample_users).
Proof.
  refine (get_current_user_without_user_id (H := sample_platform)
            (Payload.mk None None (Some 10)) 0 sample_users _ _).
  - by left.
  - intros exp [= <-]. lia.
Defined.

Lemma create_token_lifetime_witness :
  @Server.get_current_user sample_platform
    (@Server.create_token sample_platform (User.id sample_user)
       (User.email sample_user) 0)
    603800000000 sample_users
  = (Return sample_user, sample_users).
Proof.
  refine (proj1 (create_token_lifetime (H := sample_platform) sample_users
            sample_user 0 603800000000 _ _ _) _).
  - left.
  - exact sample_users_ids.
  - by vm_compute.
  - lia.
Defined.

Lemma sample_users_fresh_email :
  forall u, u ∈ Mongo.users sample_users -> User.email u <> lit "c@x.com".
Proof.
  intros u Hu. cbn in Hu.
  repeat (apply elem_of_cons in Hu as [->|Hu]); try by vm_compute.
  by apply elem_of_nil in Hu.
Qed.

Lemma register_then_login_witness :
  @Server.login sample_platform (UserLogin.mk (lit "c@x.com") (lit "p3")) 5
    (@Server.register sample_platform
       (UserRegister.mk (lit "c@x.com") (lit "C") (lit "p3")) (lit "u-3")
       (lit "salt") sample_now 0 sample_users).2
  = (Return (TokenResponse.mk
               (@Server.create_token sample_platform (lit "u-3")
                  (lit "c@x.com") 5)
               (UserInfo.mk (lit "u-3") (lit "c@x.com") (lit "C"))),
     (@Server.register sample_platform
        (UserRegister.mk (lit "c@x.com") (lit "C") (lit "p3")) (lit "u-3")
        (lit "salt") sample_now 0 sample_users).2).
Proof.
  refine (register_then_login (H := sample_platform)
            (UserRegister.mk (lit "c@x.com") (lit "C") (lit "p3"))
            (lit "u-3") (lit "salt") sample_now 0 5 sample_users _ _).
  - exact sample_users_fresh_email.
  - by vm_compute.
Defined.

Lemma register_then_authenticate_witness :
  exists resp db' user,
    @Server.register sample_platform
      (UserRegister.mk (lit "c@x.com") (lit "C") (lit "p3")) (lit "u-3")
      (lit "salt") sample_now 0 sample_users = (Return resp, db')
    /\ @Server.get_current_user sample_platform (TokenResponse.token resp)
         1000000 db' = (Return user, db')
    /\ user ∈ Mongo.users db'
    /\ Server.get_me user = TokenResponse.user resp.
Proof.
  refine (register_then_authenticate (H := sample_platform)
            (UserRegister.mk (lit "c@x.com") (lit "C") (lit "p3"))
            (lit "u-3") (lit "salt") sample_now 0 1000000 sample_users
            _ _ _ _).
  - exact sample_users_fresh_email.
  - intros u Hu. cbn in Hu.
    repeat (apply elem_of_cons in Hu as [->|Hu]); try by vm_compute.
    by apply elem_of_nil in Hu.
  - by vm_compute.
  - lia.
Defined.

Lemma login_then_authenticate_witness :
  exists user,
    @Server.get_current_user sample_platform
      (@Server.create_token sample_platform (lit "u-1") (lit "a@x.com") 0)
      1000000 sample_users
    = (Return user, sample_users)
    /\ user ∈ Mongo.users sample_users
    /\ User.email user = lit "a@x.com"
    /\ Server.get_me user = UserInfo.mk (lit "u-1") (lit "a@x.com") (lit "A").
Proof.
  refine (login_then_authenticate (H := sample_platform)
            (UserLogin.mk (lit "a@x.com") (lit "p1")) 0 1000000 sample_users
            sample_users
            (TokenResponse.mk
               (@Server.create_token sample_platform (lit "u-1")
                  (lit "a@x.com") 0)
               (UserInfo.mk (lit "u-1") (lit "a@x.com") (lit "A")))
            _ _ _ _).
  - by vm_compute.
  - exact sample_users_ids.
  - repeat constructor; by vm_compute.
  - lia.
Defined.

Lemma register_twice_witness :
  @Server.register sample_platform
    (UserRegister.mk (lit "c@x.com") (lit "Other") (lit "p4")) (lit "u-4")
    (lit "salt2") sample_now 9
    (@Server.register sample_platform
       (UserRegister.mk (lit "c@x.com") (lit "C") (lit "p3")) (lit "u-3")
       (lit "salt") sample_now 0 sample_users).2
  = (Raise (HTTPException 400 (lit "Email already registered")),
     (@Server.register sample_platform
        (UserRegister.mk (lit "c@x.com") (lit "C") (lit "p3")) (lit "u-3")
        (lit "salt") sample_now 0 sample_users).2).
Proof.
  refine (register_twice (H := sample_platform)
            (UserRegister.mk (lit "c@x.com") (lit "C") (lit "p3"))
            (UserRegister.mk (lit "c@x.com") (lit "Other") (lit "p4"))
            (lit "u-3") (lit "u-4") (lit "salt") (lit "salt2") sample_now
            sample_now 0 9 sample_users _).
  reflexivity.
Defined.

Lemma sample_now_valid : Datetime.valid sample_now.
Proof. unfold Datetime.valid. cbn. lia. Qed.

Lemma create_then_detail_witness :
  exists resp db' a,
    sample_create_analysis sample_object = (Return resp, db')
    /\ Server.get_analysis_detail (lit "a-1") sample_user db'
       = (Return a, db')
    /\ Server.response_of a = resp
    /\ CropAnalysis.created_at a = sample_now.
Proof.
  destruct (sample_create_analysis sample_object) as [[resp|e] db'] eqn:Hrun;
    [|by vm_compute in Hrun].
  unfold sample_create_analysis in Hrun.
  destruct (create_then_detail (H := sample_platform) _ _ _ _ _ _ _ _ _ _ _
              _ _ _ Hrun sample_now_valid) as (a & Hdet & Hresp & Hnow & _).
  - intros doc Hdoc. by apply elem_of_nil in Hdoc.
  - by exists resp, db', a.
Defined.

Lemma create_analysis_isolation_witness :
  (Server.get_analysis_history sample_user2
     (sample_create_analysis sample_object).2).1
  = (Server.get_analysis_history sample_user2 sample_db).1.
Proof.
  refine (proj1 (create_analysis_isolation (H := sample_platform)
            (lit "Tomato") (lit "Flowering")
            (lit "Yellowing leaves with brown spots") (Some 45)
            (Some (float_of_decimal false 255 (-1))) (Some 70) None
            sample_user2 sample_user (Return sample_object) (lit "a-1")
            sample_now sample_db _)).
  by vm_compute.
Defined.

Lemma get_analysis_history_complete_witness :
  exists rs,
    Server.get_analysis_history sample_user sample_history
    = (Return rs, sample_history)
    /\ length rs = 2%nat.
Proof.
  destruct (get_analysis_history_complete sample_history sample_user
              sample_history_written) as (rs & Hrun & Hlen & _).
  exists rs. split; [exact Hrun|]. rewrite Hlen. by vm_compute.
Defined.

Lemma get_analysis_history_keeps_newest_witness :
  exists rs,
    Server.get_analysis_history sample_user sample_history
    = (Return rs, sample_history)
    /\ forall doc a,
         doc ∈ Mongo.analyses sample_history ->
         CropAnalysis.user_id doc = User.id sample_user ->
         Server.parse_created_at doc = Return a ->
         Server.response_of a ∈ rs
         \/ forall r, r ∈ rs -> newest_first r (Server.response_of a).
Proof.
  exact (get_analysis_history_keeps_newest sample_history sample_user
           sample_history_written).
Defined.

Lemma create_then_history_witness :
  exists resp db' rs,
    sample_create_analysis sample_object = (Return resp, db')
    /\ Server.get_analysis_history sample_user db' = (Return rs, db')
    /\ resp ∈ rs.
Proof.
  destruct (sample_create_analysis sample_object) as [[resp|e] db'] eqn:Hrun;
    [|by vm_compute in Hrun].
  unfold sample_create_analysis in Hrun.
  destruct (create_then_history (H := sample_platform) _ _ _ _ _ _ _ _ _ _ _
              _ _ _ Hrun sample_now_valid) as (rs & Hhist & Hin).
  - intros doc Hdoc. by apply elem_of_nil in Hdoc.
  - cbn. lia.
  - by exists resp, db', rs.
Defined.

Lemma analyze_crop_with_ai_keeps_object_witness :
  dom (<[lit "confidence_score" := VInt 85]> sample_dict) = dom sample_dict
  /\ <[lit "confidence_score" := VInt 85]> sample_dict !! lit "diagnosis"
     = sample_dict !! lit "diagnosis".
Proof.
  destruct (analyze_crop_with_ai_keeps_object (H := sample_platform)
              sample_object sample_dict
              (<[lit "confidence_score" := VInt 85]> sample_dict))
    as (Hdom & Hother & _); [by vm_compute|by vm_compute|].
  split; [exact Hdom|]. apply Hother. by vm_compute.
Defined.


Lemma create_analysis_empty_score_witness :
  sample_create_analysis (js "{'confidence_score': null}")
  = (Raise ValidationError, sample_db).
Proof.
  refine (create_analysis_empty_score (H := sample_platform)
            (js "{'confidence_score': null}")
            {[lit "confidence_score" := VNone]} VNone (lit "Tomato")
            (lit "Flowering") (lit "Yellowing leaves with brown spots")
            (Some 45) (Some (float_of_decimal false 255 (-1))) (Some 70)
            None sample_user (lit "a-1") sample_now sample_db _ _ _ _).
  - by vm_compute.
  - by vm_compute.
  - by left.
  - intros e. discriminate.
Defined.

